(** * Upwork jobs scraper: text normalizers, record extractor, page parser,
      scrape orchestrator and exporter

    A shallow embedding of
      - src/extractors/utils_text.py    (text normalizers),
      - src/extractors/upwork_parser.py (UpworkJobScraper),
      - src/outputs/exporter.py         (DataExporter),
    followed by the properties of the specification that were checked on it.

    Conventions of the embedding.
      - A Python [str] is a [string]; a character stands for the code point
        of the same number, so the strings covered are those of code points
        0..255.  Whitespace, digits and lower-casing are the ones Python uses
        on that range ([str.isspace], the regex classes [\s] and [\d],
        [str.lower]).
      - A Python [int] is a [Z]; a Python [float] is a binary64 [float].
      - Code that may raise returns in the error monad [py]; [try]/[except]
        is [try_except].
      - Library objects (a BeautifulSoup tag, the dateutil parser, the
        pandas data frame) are described by what the program asks of them.
      - What the outside answers (the network, the clock, the operating
        system, pandas writing a file) is a parameter of the code that
        asks. *)

From Stdlib Require Import PrimFloat.
From Stdlib Require Import ZArith NArith Ascii String List Bool Lia DecimalString.
From stdpp Require Import base list gmap strings sorting.

Local Open Scope Z_scope.

(* ===================================================================== *)
(** * Exceptions and the error monad *)
(* ===================================================================== *)

(** The exception classes the program meets; all derive from [Exception]. *)
Inductive exn : Type :=
| ValueError (msg : string)
| OverflowError
| KeyError (key : string)
| IndexError
| RuntimeError (msg : string)
| OSError (name : string)
| LibraryError (name : string).

Inductive py (A : Type) : Type :=
| Ok (a : A)
| Raise (e : exn).
Arguments Ok {A} a.
Arguments Raise {A} e.

Definition bind {A B} (m : py A) (f : A → py B) : py B :=
  match m with
  | Ok a => f a
  | Raise e => Raise e
  end.

(** With these instances the monad notation [x ← m; k] reads as [bind]. *)
Global Instance py_ret : MRet py := λ A, @Ok A.
Global Instance py_bind : MBind py := λ A B f m, bind m f.

(** [try: body / except Exception: handler]. *)
Definition try_except {A} (body : py A) (handler : exn → py A) : py A :=
  match body with
  | Ok a => Ok a
  | Raise e => handler e
  end.

Definition returns {A} (m : py A) : Prop := ∃ a, m = Ok a.

(* ===================================================================== *)
(** * Characters and strings *)
(* ===================================================================== *)

Module Chr.

Definition code (c : ascii) : N := N_of_ascii c.

(** [str.isspace] and the regex class [\s] on code points 0..255:
    TAB..CR, FS..US, SPACE, NEL and NBSP. *)
Definition is_space (c : ascii) : bool :=
  let n := code c in
  ((9 <=? n) && (n <=? 13) || (28 <=? n) && (n <=? 32)
   || (n =? 133) || (n =? 160))%N.

(** The regex class [\d] on code points 0..255. *)
Definition is_digit (c : ascii) : bool :=
  let n := code c in ((48 <=? n) && (n <=? 57))%N.

(** [str.lower] on one code point: A..Z and the upper-case letters of
    0xC0..0xDE (not the multiplication sign 0xD7) move up by 32. *)
Definition lower (c : ascii) : ascii :=
  let n := code c in
  if ((65 <=? n) && (n <=? 90)
      || (192 <=? n) && (n <=? 222) && negb (n =? 215))%N
  then ascii_of_N (n + 32) else c.

Definition digit_value (c : ascii) : Z := Z.of_N (code c) - 48.

End Chr.

Module Str.

Definition is_empty (s : string) : bool :=
  match s with EmptyString => true | String _ _ => false end.

(** Truthiness of a [str]. *)
Definition truthy (s : string) : bool := negb (is_empty s).

Fixpoint all (p : ascii → bool) (s : string) : bool :=
  match s with
  | EmptyString => true
  | String c s' => p c && all p s'
  end.

Fixpoint map (f : ascii → ascii) (s : string) : string :=
  match s with
  | EmptyString => EmptyString
  | String c s' => String (f c) (map f s')
  end.

(** [s.lower()] *)
Definition lower (s : string) : string := map Chr.lower s.

(** [s.startswith(p)]; gives the rest of [s] behind the prefix. *)
Fixpoint strip_prefix (p s : string) : option string :=
  match p, s with
  | EmptyString, _ => Some s
  | String a p', String b s' =>
      if Ascii.eqb a b then strip_prefix p' s' else None
  | String _ _, EmptyString => None
  end.

Definition startswith (s p : string) : bool :=
  match strip_prefix p s with Some _ => true | None => false end.

(** [s.partition(sep)] for a non-empty [sep]: the text before the first
    occurrence of [sep] and the text behind it, or [None] when [sep]
    does not occur. *)
Fixpoint partition (sep s : string) : option (string * string) :=
  match strip_prefix sep s with
  | Some rest => Some (EmptyString, rest)
  | None =>
      match s with
      | EmptyString => None
      | String c s' =>
          match partition sep s' with
          | Some (before, after) => Some (String c before, after)
          | None => None
          end
      end
  end.

(** [sub in s] *)
Definition contains (sub s : string) : bool :=
  match partition sub s with Some _ => true | None => false end.

(** [s.replace(old, new, 1)] for a non-empty [old]. *)
Definition replace_first (old new s : string) : string :=
  match partition old s with
  | Some (before, after) => before +:+ new +:+ after
  | None => s
  end.

(** [s.lstrip(chars)], [s.rstrip(chars)], [s.strip(chars)], the set of
    characters given by its membership test. *)
Fixpoint lstrip (p : ascii → bool) (s : string) : string :=
  match s with
  | EmptyString => EmptyString
  | String c s' => if p c then lstrip p s' else s
  end.

Fixpoint rstrip (p : ascii → bool) (s : string) : string :=
  match s with
  | EmptyString => EmptyString
  | String c s' =>
      let r := rstrip p s' in
      if p c && is_empty r then EmptyString else String c r
  end.

Definition strip (p : ascii → bool) (s : string) : string :=
  rstrip p (lstrip p s).

(** Membership of a character in a string, as in [s.strip(" ,-")]. *)
Fixpoint mem (chars : string) (c : ascii) : bool :=
  match chars with
  | EmptyString => false
  | String a chars' => Ascii.eqb a c || mem chars' c
  end.

(** [s.split(sep)] for a one-character [sep]: never empty. *)
Fixpoint split (sep : ascii) (s : string) : list string :=
  match s with
  | EmptyString => [EmptyString]
  | String c s' =>
      if Ascii.eqb c sep then EmptyString :: split sep s'
      else match split sep s' with
           | piece :: pieces => String c piece :: pieces
           | [] => [String c EmptyString]
           end
  end.

(** [sep.join(parts)] *)
Definition join (sep : string) (parts : list string) : string :=
  String.concat sep parts.

End Str.

(** [str(n)] for an [int]. *)
Definition str_of_int (n : Z) : string := NilZero.string_of_int (Z.to_int n).

(* ===================================================================== *)
(** * utils_text.py *)
(* ===================================================================== *)

(** [_WHITESPACE_RE.sub(" ", text)] with [_WHITESPACE_RE = \s+]: every
    maximal run of whitespace becomes one space.  [in_run] tells that the
    previous character belonged to the run being replaced. *)
Fixpoint sub_whitespace (in_run : bool) (text : string) : string :=
  match text with
  | EmptyString => EmptyString
  | String c text' =>
      if Chr.is_space c
      then if in_run then sub_whitespace true text'
           else String " " (sub_whitespace true text')
      else String c (sub_whitespace false text')
  end.

(** [clean_text], on a [str]. *)
Definition clean_text (text : string) : string :=
  let text := sub_whitespace false text in
  Str.strip Chr.is_space text.

(** [clean_text] with its guard [if text is None: return ""]. *)
Definition clean_text_or_none (text : option string) : string :=
  match text with
  | None => ""
  | Some text => clean_text text
  end.

(** ** Integers read from text *)

(** CPython refuses to convert a decimal string of more than
    [sys.int_info.default_max_str_digits] digits. *)
Definition int_max_str_digits : nat := 4300.

Fixpoint digits_value (acc : Z) (s : string) : Z :=
  match s with
  | EmptyString => acc
  | String c s' => digits_value (10 * acc + Chr.digit_value c) s'
  end.

(** [int(s)] for a text matched by [\d+].  A text with more digits than the
    limit raises [ValueError]; so does a text that is no number (the program
    never passes one). *)
Definition int_of_str (s : string) : py Z :=
  if negb (Str.truthy s && Str.all Chr.is_digit s)
  then Raise (ValueError "invalid literal for int() with base 10")
  else if (int_max_str_digits <? String.length s)%nat
       then Raise (ValueError "Exceeds the limit (4300 digits) for integer string conversion")
       else Ok (digits_value 0 s).

(** ** The regular expressions of the module

    The patterns of the program are sequences of literals, greedy character
    class repetitions ([\d+], [\s+]) and alternations of literals.  The
    matcher backtracks as [re] does: a repetition first takes as many
    characters as it can and gives them back one at a time, an alternation
    tries its branches from left to right. *)
Module Re.

Inductive atom : Type :=
| Lit (s : string)
| Plus (cls : ascii → bool)
| Alt (alts : list string).

Definition regex : Type := list atom.

(** [cls+] followed by the continuation [k], which receives the text
    taken so far and the rest of the subject. *)
Fixpoint plus_match {A} (cls : ascii → bool) (k : string → string → option A)
    (taken s : string) : option A :=
  match s with
  | EmptyString => None
  | String c s' =>
      if cls c then
        let taken' := taken +:+ String c "" in
        match plus_match cls k taken' s' with
        | Some r => Some r
        | None => k taken' s'
        end
      else None
  end.

Fixpoint first_some {A B} (f : A → option B) (l : list A) : option B :=
  match l with
  | [] => None
  | a :: l' => match f a with Some b => Some b | None => first_some f l' end
  end.

(** The match of [p] at the start of [s]: the text taken by each atom. *)
Fixpoint match_here (p : regex) (s : string) : option (list string) :=
  match p with
  | [] => Some []
  | a :: p' =>
      let k (taken rest : string) : option (list string) :=
        match match_here p' rest with
        | Some texts => Some (taken :: texts)
        | None => None
        end in
      match a with
      | Lit l =>
          match Str.strip_prefix l s with
          | Some rest => k l rest
          | None => None
          end
      | Plus cls => plus_match cls k "" s
      | Alt alts =>
          first_some (λ l, match Str.strip_prefix l s with
                           | Some rest => k l rest
                           | None => None
                           end) alts
      end
  end.

(** [re.match(p, s)] *)
Definition match_ (p : regex) (s : string) : option (list string) :=
  match_here p s.

(** [re.search(p, s)]: the match at the leftmost position that has one. *)
Fixpoint search (p : regex) (s : string) : option (list string) :=
  match match_here p s with
  | Some texts => Some texts
  | None =>
      match s with
      | EmptyString => None
      | String _ s' => search p s'
      end
  end.

(** [re.findall(cls+, s)]: the maximal runs of [cls], left to right.
    [cur] is the run being read. *)
Fixpoint findall_plus (cls : ascii → bool) (cur s : string) : list string :=
  let flush := if Str.is_empty cur then [] else [cur] in
  match s with
  | EmptyString => flush
  | String c s' =>
      if cls c then findall_plus cls (cur +:+ String c "") s'
      else flush ++ findall_plus cls "" s'
  end.

(** The text taken by the atom at [atom_index]; a capturing group is
    read off at the index of its atom. *)
Definition group (texts : list string) (atom_index : nat) : string :=
  nth atom_index texts "".

End Re.

(** [(\d+)\s+(minute|minutes|hour|hours|day|days|week|weeks)\s+ago];
    group 1 is atom 0 and group 2 is atom 2. *)
Definition relative_re : Re.regex :=
  [ Re.Plus Chr.is_digit; Re.Plus Chr.is_space;
    Re.Alt ["minute"; "minutes"; "hour"; "hours"; "day"; "days"; "week"; "weeks"];
    Re.Plus Chr.is_space; Re.Lit "ago" ].

(** [(\d+)\s+reviews]; group 1 is atom 0. *)
Definition reviews_re : Re.regex :=
  [ Re.Plus Chr.is_digit; Re.Plus Chr.is_space; Re.Lit "reviews" ].

(** ** Dates and times (the [datetime] module) *)
Module Datetime.

Definition us_per_second : Z := 1000000.
Definition us_per_minute : Z := 60 * us_per_second.
Definition us_per_hour : Z := 60 * us_per_minute.
Definition us_per_day : Z := 24 * us_per_hour.
Definition us_per_week : Z := 7 * us_per_day.

(** A [datetime]: the microseconds its calendar fields count from
    0001-01-01T00:00:00, and the offset of its time zone from UTC in
    seconds ([None] for a naive value). *)
Record datetime : Type := mk_datetime {
  ticks : Z;
  utcoffset : option Z
}.

(** [datetime.max] is 9999-12-31T23:59:59.999999, the last microsecond of
    day 3652059. *)
Definition max_ticks : Z := 3652059 * us_per_day.

Definition in_range (t : Z) : bool := (0 <=? t) && (t <? max_ticks).

(** [timedelta] applied to the keyword arguments [kwargs], in microseconds; [OverflowError] when the
    number of days leaves -999999999..999999999. *)
Definition kwarg (kwargs : list (string * Z)) (key : string) : Z :=
  match List.find (λ kv, String.eqb (fst kv) key) kwargs with
  | Some (_, v) => v
  | None => 0
  end.

Definition timedelta (kwargs : list (string * Z)) : py Z :=
  let us := kwarg kwargs "weeks" * us_per_week
            + kwarg kwargs "days" * us_per_day
            + kwarg kwargs "hours" * us_per_hour
            + kwarg kwargs "minutes" * us_per_minute in
  if 999999999 <? Z.abs (us / us_per_day) then Raise OverflowError
  else Ok us.

(** [dt - delta]; [OverflowError] when the result leaves the years
    1..9999. *)
Definition sub (dt : datetime) (delta : Z) : py datetime :=
  let t := ticks dt - delta in
  if in_range t then Ok (mk_datetime t (utcoffset dt))
  else Raise OverflowError.

(** [dt.replace(tzinfo=timezone.utc)] *)
Definition replace_tzinfo_utc (dt : datetime) : datetime :=
  mk_datetime (ticks dt) (Some 0).

(** Year, month and day of the day numbered [n] from 0001-01-01 = 0
    (proleptic Gregorian calendar). *)
Definition civil (n : Z) : Z * Z * Z :=
  let z := n + 306 in
  let era := z / 146097 in
  let doe := z - era * 146097 in
  let yoe := (doe - doe / 1460 + doe / 36524 - doe / 146096) / 365 in
  let doy := doe - (365 * yoe + yoe / 4 - yoe / 100) in
  let mp := (5 * doy + 2) / 153 in
  let d := doy - (153 * mp + 2) / 5 + 1 in
  let m := if mp <? 10 then mp + 3 else mp - 9 in
  let y := yoe + era * 400 + (if m <=? 2 then 1 else 0) in
  (y, m, d).

(** A non-negative number in decimal, padded with zeros to [width]. *)
Fixpoint zeros (n : nat) : string :=
  match n with O => "" | S n' => String "0" (zeros n') end.

Definition pad (width : nat) (n : Z) : string :=
  let digits := str_of_int n in
  zeros (width - String.length digits) +:+ digits.

Definition format_offset (off : Z) : string :=
  let sign := if off <? 0 then "-" else "+" in
  let a := Z.abs off in
  let hh := a / 3600 in
  let mm := (a mod 3600) / 60 in
  let ss := a mod 60 in
  sign +:+ pad 2 hh +:+ ":" +:+ pad 2 mm
    +:+ (if ss =? 0 then "" else ":" +:+ pad 2 ss).

(** [dt.isoformat()] *)
Definition isoformat (dt : datetime) : string :=
  let day := ticks dt / us_per_day in
  let rest := ticks dt mod us_per_day in
  let '(y, m, d) := civil day in
  let hh := rest / us_per_hour in
  let mi := (rest mod us_per_hour) / us_per_minute in
  let ss := (rest mod us_per_minute) / us_per_second in
  let us := rest mod us_per_second in
  pad 4 y +:+ "-" +:+ pad 2 m +:+ "-" +:+ pad 2 d +:+ "T"
    +:+ pad 2 hh +:+ ":" +:+ pad 2 mi +:+ ":" +:+ pad 2 ss
    +:+ (if us =? 0 then "" else "." +:+ pad 6 us)
    +:+ match utcoffset dt with
        | Some off => format_offset off
        | None => ""
        end.

(** The aware UTC value of the given calendar day (counted from
    0001-01-01 = 0) and time of day. *)
Definition utc (day hh mi ss us : Z) : datetime :=
  mk_datetime (day * us_per_day + hh * us_per_hour + mi * us_per_minute
               + ss * us_per_second + us) (Some 0).

End Datetime.

Import Datetime.

(** ** The normalizers *)

Fixpoint mapM {A B} (f : A → py B) (l : list A) : py (list B) :=
  match l with
  | [] => Ok []
  | a :: l' => b ← f a; bs ← mapM f l'; Ok (b :: bs)
  end.

(** [str.isdigit] on a code point of 0..255: the decimal digits and the
    superscripts two, three and one. *)
Definition chr_isdigit (c : ascii) : bool :=
  let n := Chr.code c in
  (Chr.is_digit c || (n =? 178) || (n =? 179) || (n =? 185))%N.

Definition isdigit (s : string) : bool := Str.truthy s && Str.all chr_isdigit s.

(** The step that strips a leading "posted" (lines 38-40). *)
Definition strip_posted (text_clean : string) : string :=
  if Str.startswith text_clean "posted"
  then Str.strip (Str.mem " ,-") (Str.replace_first "posted" "" text_clean)
  else text_clean.

(** The keyword arguments of the [timedelta] of a relative time (lines
    49-57). *)
Definition delta_kwargs (unit : string) (value : Z) : list (string * Z) :=
  if Str.contains "minute" unit then [("minutes", value)]
  else if Str.contains "hour" unit then [("hours", value)]
  else if Str.contains "day" unit then [("days", value)]
  else if Str.contains "week" unit then [("weeks", value)]
  else [].

Section Normalizers.

(** [dateutil.parser.parse]; it raises when the text holds no date. *)
Variable date_parser_parse : string → py datetime.

(** [parse_created_at]; [now] is the reading [datetime.now(timezone.utc)]
    the call takes. *)
Definition parse_created_at (now : datetime) (text : string) : py string :=
  let text_clean := Str.lower (clean_text text) in
  if Str.is_empty text_clean then Ok ""
  else
    (* Strip leading "posted" *)
    let text_clean := strip_posted text_clean in
    (* Relative patterns: "3 hours ago", "2 days ago", etc. *)
    match Re.match_ relative_re text_clean with
    | Some m =>
        value ← int_of_str (Re.group m 0);
        let unit := Re.group m 2 in
        delta ← timedelta (delta_kwargs unit value);
        created ← Datetime.sub now delta;
        Ok (isoformat created)
    | None =>
        (* Simple words *)
        if String.eqb text_clean "yesterday" then
          delta ← timedelta [("days", 1)];
          created ← Datetime.sub now delta;
          Ok (isoformat created)
        else
          (* Try direct date parsing *)
          try_except
            (dt ← date_parser_parse text_clean;
             let dt := match utcoffset dt with
                       | None => replace_tzinfo_utc dt
                       | Some _ => dt
                       end in
             Ok (isoformat dt))
            (λ _, Ok (clean_text text))
    end.

End Normalizers.

Definition parse_budget (text : string) : string := clean_text text.

Definition parse_client_spent (text : string) : string := clean_text text.

(** The loop [for n in numbers: if 0 < n < 10000: return n] and the final
    [return 0]. *)
Fixpoint first_reasonable (numbers : list Z) : Z :=
  match numbers with
  | [] => 0
  | n :: numbers' =>
      if (0 <? n) && (n <? 10000) then n else first_reasonable numbers'
  end.

Definition parse_client_reviews (text : string) : py Z :=
  let text_clean := Str.lower (clean_text text) in
  (* Prefer "... 48 reviews" *)
  preferred ←
    match Re.search reviews_re text_clean with
    | Some m =>
        try_except
          (n ← int_of_str (Re.group m 0); Ok (Some n))
          (λ e, match e with
                | ValueError _ => Ok None
                | _ => Raise e
                end)
    | None => Ok None
    end;
  match preferred with
  | Some n => Ok n
  | None =>
      (* Fallback: any reasonable number in text *)
      numbers ← mapM int_of_str
                  (List.filter isdigit (Re.findall_plus Chr.is_digit "" text_clean));
      Ok (first_reasonable numbers)
  end.

Definition parse_job_type (text : string) : string :=
  let text_clean := Str.lower (clean_text text) in
  if Str.contains "hourly" text_clean then "Hourly"
  else if Str.contains "fixed-price" text_clean
          || Str.contains "fixed price" text_clean
          || Str.contains "fixed-price" text_clean then "Fixed"
  else "".

(** The loop of [parse_skills_list] with its two accumulators. *)
Fixpoint skills_loop (skills_raw : list string) (cleaned : list string)
    (seen : gset string) : list string :=
  match skills_raw with
  | [] => cleaned
  | raw :: rest =>
      let skill := clean_text raw in
      if Str.is_empty skill then skills_loop rest cleaned seen
      else
        let key := Str.lower skill in
        if decide (key ∈ seen) then skills_loop rest cleaned seen
        else skills_loop rest (cleaned ++ [skill]) ({[key]} ∪ seen)
  end.

Definition parse_skills_list (skills_raw : list string) : list string :=
  skills_loop skills_raw [] ∅.

(* ===================================================================== *)
(** * upwork_parser.py *)
(* ===================================================================== *)

(** ** Markup, as BeautifulSoup presents it *)

(** An element found by a selector: its attributes, [get_text()] and
    [get_text(strip=True)]. *)
Record Tag : Type := mk_tag {
  tag_attrs : list (string * string);
  tag_text : string;
  tag_text_strip : string
}.

Definition attr_get (attrs : list (string * string)) (name : string)
    : option string :=
  match List.find (λ kv, String.eqb (fst kv) name) attrs with
  | Some (_, v) => Some v
  | None => None
  end.

(** A job card: its attributes ([card.get]), the selector queries
    [card.select_one] and [card.select], which may raise, and
    [card.get_text(" ", strip=True)]. *)
Record Card : Type := mk_card {
  card_attrs : list (string * string);
  card_select_one : string → py (option Tag);
  card_select : string → py (list Tag);
  card_text : string
}.

(** A parsed page: [soup.select]. *)
Record Soup : Type := mk_soup {
  soup_select : string → list Card
}.

(** ** Job records

    The dictionary [_parse_single_job] builds has a fixed set of keys; it
    is a record here and [job_dict] below gives it as the dictionary the
    exporter receives. *)
Record Job : Type := mk_job {
  jobId : string;
  title : string;
  description : string;
  createdAt : string;
  jobType : string;
  duration : string;
  budget : string;
  clientLocation : string;
  clientPaymentVerification : bool;
  clientSpent : string;
  clientReviews : Z;
  category : string;
  skills : list string
}.

(** Truthiness of [job_id], a [str] or [None]. *)
Definition truthy_opt (o : option string) : bool :=
  match o with
  | Some s => Str.truthy s
  | None => false
  end.

(** [x or ""] *)
Definition or_empty (o : option string) : string :=
  match o with
  | Some s => if Str.truthy s then s else ""
  | None => ""
  end.

(** [s.split(sep, 1)] for a non-empty [sep]. *)
Definition split_once (sep s : string) : list string :=
  match Str.partition sep s with
  | Some (before, after) => [before; after]
  | None => [s]
  end.

(** [clean_text(el.get_text()) if el else ""] *)
Definition text_of (el : option Tag) : string :=
  match el with
  | Some el => clean_text (tag_text el)
  | None => ""
  end.

(** The loop over the id-bearing attributes; [job_id] is the value the
    variable holds so far. *)
Fixpoint job_id_from_attrs (card : Card) (attrs : list string)
    (job_id : option string) : option string :=
  match attrs with
  | [] => job_id
  | attr :: attrs' =>
      let job_id := attr_get (card_attrs card) attr in
      if truthy_opt job_id then job_id
      else job_id_from_attrs card attrs' job_id
  end.

(** The identifier read off the address of a job link. *)
Definition job_id_from_href (href : string) : string :=
  if Str.contains "~" href then
    hd "" (Str.split "?" (hd "" (split_once "/" (List.last (split_once "~" href) ""))))
  else
    hd "" (Str.split "?" (List.last (Str.split "/" (Str.rstrip (Str.mem "/") href)) "")).

(** The loop that looks for a "Posted ..." text among [small] and [span]
    elements. *)
Fixpoint posted_text (smalls : list Tag) : string :=
  match smalls with
  | [] => ""
  | small :: smalls' =>
      let text := tag_text_strip small in
      if Str.startswith (Str.lower text) "posted" then text
      else posted_text smalls'
  end.

(** The selectors of the program.  [quoted v] is [v] between double
    quotes, as the selectors have it. *)
Module Sel.
Definition quoted (v : string) : string :=
  String (ascii_of_N 34) v +:+ String (ascii_of_N 34) "".
Definition data_test (v : string) : string :=
  "[data-test=" +:+ quoted v +:+ "]".

Definition job_link : string :=
  "a[href*=" +:+ quoted "/jobs/" +:+ "], a[href*=" +:+ quoted "/job/" +:+ "]".
Definition title : string := data_test "job-title-link" +:+ ", h4, h3, a".
Definition description : string :=
  data_test "job-description-text"
    +:+ ", div[class*=" +:+ quoted "description" +:+ "], p".
Definition posted_on : string := data_test "job-posted-on".
Definition small_span : string := "small, span".
Definition duration : string :=
  data_test "job-duration" +:+ ", span:contains(" +:+ quoted "month" +:+ ")".
Definition budget : string :=
  data_test "job-budget" +:+ ", " +:+ data_test "job-hourly-rate"
    +:+ ", span:contains(" +:+ quoted "$" +:+ "), strong:contains("
    +:+ quoted "$" +:+ ")".
Definition location : string :=
  data_test "client-location"
    +:+ ", span[aria-label*=" +:+ quoted "location" +:+ "]".
Definition spent : string := data_test "client-spent".
Definition category : string :=
  data_test "job-category" +:+ ", " +:+ data_test "job-subcategory".
Definition skill : string :=
  data_test "skill-chip" +:+ ", a[class*=" +:+ quoted "skill" +:+ "]".

Definition air_card : string := "section.air-card".
Definition job_tile : string := "div" +:+ data_test "job-tile".
Definition section : string := "section".
Definition article : string := "article".
End Sel.

(** ** The pause between two pages *)

(** [time.sleep(secs)] for a [float], as CPython 3.11 does it on a 64-bit
    platform: the seconds are turned into nanoseconds, which have to fit a
    signed 64-bit integer and must not be negative.  [2^63] nanoseconds pass
    the range test and wrap to a negative number.  Then the operating
    system is asked to pause; [os_sleep] is the [OSError] with which it
    refuses, if it does (a pause that ends beyond what its clock holds). *)
Definition time_sleep (os_sleep : float → option string) (secs : float)
    : py unit :=
  if PrimFloat.is_nan secs
  then Raise (ValueError "Invalid value NaN (not a number)")
  else
    let ns := PrimFloat.mul secs 1e9%float in
    if PrimFloat.ltb ns (-0x1p63)%float || PrimFloat.ltb 0x1p63%float ns
    then Raise OverflowError
    else if PrimFloat.ltb ns 0%float || PrimFloat.eqb ns 0x1p63%float
    then Raise (ValueError "sleep length must be non-negative")
    else
      match os_sleep secs with
      | Some name => Raise (OSError name)
      | None => Ok tt
      end.

Section Scraper.

Variable date_parser_parse : string → py datetime.
(** The reading of the clock, [datetime.now(timezone.utc)]. *)
Variable now : datetime.
(** [BeautifulSoup(html, "lxml")] *)
Variable BeautifulSoup : string → Soup.
(** The configuration of the scraper. *)
Variable search_url_template : string.
Variable max_items : Z.
Variable delay_seconds : float.
(** [session.get(url, timeout=30)], [raise_for_status()] and [.text];
    [None] when a [requests.RequestException] is raised. *)
Variable http_get : string → option string.
(** The operating system asked to pause. *)
Variable os_sleep : float → option string.

(** Job ID: data attributes first, then link URLs (lines 124-139). *)
Definition resolve_job_id (card : Card) : py (option string) :=
  let job_id :=
    job_id_from_attrs card
      ["data-job-id"; "data-ev-job-id"; "data-test-job-id"] None in
  if negb (truthy_opt job_id) then
    link ← card_select_one card Sel.job_link;
    match link with
    | Some link =>
        match attr_get (tag_attrs link) "href" with
        | Some href => Ok (Some (job_id_from_href href))
        | None => Ok job_id
        end
    | None => Ok job_id
    end
  else Ok job_id.

(** Created at: the source text (lines 149-160). *)
Definition resolve_created_text (card : Card) : py string :=
  created_el ← card_select_one card Sel.posted_on;
  match created_el with
  | Some created_el => Ok (tag_text created_el)
  | None =>
      smalls ← card_select card Sel.small_span;
      Ok (posted_text smalls)
  end.

Definition _parse_single_job (card : Card) : py (option Job) :=
  job_id ← resolve_job_id card;
  title_el ← card_select_one card Sel.title;
  let title := text_of title_el in
  desc_el ← card_select_one card Sel.description;
  let description := text_of desc_el in
  created_text ← resolve_created_text card;
  created_at ← parse_created_at date_parser_parse now created_text;
  (* Job type & duration *)
  let job_type := parse_job_type (card_text card) in
  duration_el ← card_select_one card Sel.duration;
  let duration := text_of duration_el in
  (* Budget *)
  budget_el ← card_select_one card Sel.budget;
  let budget_text := text_of budget_el in
  let budget := parse_budget budget_text in
  (* Client information *)
  location_el ← card_select_one card Sel.location;
  let client_location := text_of location_el in
  let client_payment_verification :=
    Str.contains "payment verified" (Str.lower (card_text card)) in
  spent_el ← card_select_one card Sel.spent;
  let spent_text := text_of spent_el in
  let client_spent := parse_client_spent spent_text in
  reviews ← parse_client_reviews (card_text card);
  (* Category *)
  category_el ← card_select_one card Sel.category;
  let category := text_of category_el in
  skill_tags ← card_select card Sel.skill;
  let skills := parse_skills_list (List.map tag_text skill_tags) in
  if negb (truthy_opt job_id || Str.truthy title || Str.truthy description)
  then
    (* Too empty, skip this card. *)
    Ok None
  else
    Ok (Some {| jobId := or_empty job_id;
                title := title;
                description := description;
                createdAt := created_at;
                jobType := job_type;
                duration := duration;
                budget := budget;
                clientLocation := client_location;
                clientPaymentVerification := client_payment_verification;
                clientSpent := client_spent;
                clientReviews := reviews;
                category := category;
                skills := skills |}).

(** ** The page parser *)

(** The cascade that picks the cards of a page, with the selectors it
    runs on the page, in order ([a or b] evaluates [b] only when [a] is
    empty). *)
Definition select_job_cards (soup : Soup) : list string * list Card :=
  let first := soup_select soup Sel.air_card in
  let '(ran, job_cards) :=
    match first with
    | _ :: _ => ([Sel.air_card], first)
    | [] => ([Sel.air_card; Sel.job_tile], soup_select soup Sel.job_tile)
    end in
  match job_cards with
  | _ :: _ => (ran, job_cards)
  | [] =>
      (* Fallback to more generic container. *)
      let sections := soup_select soup Sel.section in
      match sections with
      | _ :: _ => (ran ++ [Sel.section], sections)
      | [] => (ran ++ [Sel.section; Sel.article], soup_select soup Sel.article)
      end
  end.

(** The loop over the cards; [jobs] is the list built so far. *)
Fixpoint parse_cards (job_cards : list Card) (jobs : list Job)
    : py (list Job) :=
  match job_cards with
  | [] => Ok jobs
  | card :: rest =>
      jobs ← try_except
               (job ← _parse_single_job card;
                match job with
                | Some job => Ok (jobs ++ [job])
                | None => Ok jobs
                end)
               (λ _, Ok jobs);
      parse_cards rest jobs
  end.

(** [parse_jobs_from_html]: the selectors run on the page, and the
    outcome. *)
Definition parse_jobs_from_html (html : string)
    : list string * py (list Job) :=
  if Str.is_empty html then ([], Ok [])
  else
    let soup := BeautifulSoup html in
    let '(ran, job_cards) := select_job_cards soup in
    (ran, parse_cards job_cards []).

(** ** Page addresses *)

(** One replacement field of [template.format(page=page)].  A field
    with a conversion, a format specification, an attribute or an index
    is outside this model. *)
Definition format_field (page : Z) (field : string) : py string :=
  if String.eqb field "page" then Ok (str_of_int page)
  else if Str.all Chr.is_digit field then Raise IndexError
  else if Str.all (λ c, negb (Str.mem ".[!:{" c)) field
       then Raise (KeyError field)
       else Raise (LibraryError "format field outside the model").

(** [template.format(page=page)]: [field] holds the text of the
    replacement field being read, if any. *)
Fixpoint str_format (page : Z) (field : option string) (s : string)
    : py string :=
  match s with
  | EmptyString =>
      match field with
      | None => Ok ""
      | Some _ => Raise (ValueError "expected '}' before end of string")
      end
  | String c s' =>
      match field with
      | Some f =>
          if Ascii.eqb c "}" then
            v ← format_field page f;
            rest ← str_format page None s';
            Ok (v +:+ rest)
          else str_format page (Some (f +:+ String c "")) s'
      | None =>
          if Ascii.eqb c "{" then
            match s' with
            | String "{" s'' =>
                rest ← str_format page None s''; Ok (String "{" rest)
            | _ => str_format page (Some "") s'
            end
          else if Ascii.eqb c "}" then
            match s' with
            | String "}" s'' =>
                rest ← str_format page None s''; Ok (String "}" rest)
            | _ => Raise (ValueError "Single '}' encountered in format string")
            end
          else rest ← str_format page None s'; Ok (String c rest)
      end
  end.

Definition _build_url (page : Z) : py string :=
  if Str.contains "{page}" search_url_template then
    str_format page None search_url_template
  else
    (* Fallback: add or update a "page" query parameter manually. *)
    if Str.contains "?" search_url_template then
      if Str.contains "page=" search_url_template then
        (* naive replace; good enough for this context *)
        let base := match Str.partition "page=" search_url_template with
                    | Some (base, _) => base
                    | None => search_url_template
                    end in
        Ok (base +:+ "page=" +:+ str_of_int page)
      else Ok (search_url_template +:+ "&page=" +:+ str_of_int page)
    else Ok (search_url_template +:+ "?page=" +:+ str_of_int page).

Definition fetch_search_page (page : Z) : py string :=
  url ← _build_url page;
  match http_get url with
  | Some text => Ok text
  | None => Ok ""
  end.

(** ** The orchestrator *)

(** What a run does to the outside: the pages it fetches and its
    pauses. *)
Inductive event : Type :=
| Fetched (page : Z)
| Slept.

(** The loop that appends the jobs of a page. *)
Fixpoint append_jobs (jobs page_jobs : list Job) : list Job :=
  match page_jobs with
  | [] => jobs
  | job :: page_jobs' =>
      let jobs := jobs ++ [job] in
      if max_items <=? Z.of_nat (length jobs) then jobs
      else append_jobs jobs page_jobs'
  end.

(** The loop over the pages; [jobs] and [log] are the jobs gathered and
    the events so far. *)
Fixpoint scrape_loop (max_pages : Z) (pages : list Z) (jobs : list Job)
    (log : list event) : py (list Job * list event) :=
  match pages with
  | [] => Ok (jobs, log)
  | page :: pages' =>
      if max_items <=? Z.of_nat (length jobs) then Ok (jobs, log)
      else
        html ← fetch_search_page page;
        let log := log ++ [Fetched page] in
        if Str.is_empty html then Ok (jobs, log)
        else
          page_jobs ← snd (parse_jobs_from_html html);
          let jobs := append_jobs jobs page_jobs in
          if (page <? max_pages) && (Z.of_nat (length jobs) <? max_items)
          then
            _ ← time_sleep os_sleep delay_seconds;
            scrape_loop max_pages pages' jobs (log ++ [Slept])
          else scrape_loop max_pages pages' jobs log
  end.

(** [scrape(max_pages)] with the events of the run; [range(1, max_pages
    + 1)] is [seqZ 1 max_pages]. *)
Definition scrape_run (max_pages : Z) : py (list Job * list event) :=
  scrape_loop max_pages (seqZ 1 max_pages) [] [].

Definition scrape (max_pages : Z) : py (list Job) :=
  r ← scrape_run max_pages; Ok (fst r).

End Scraper.

(* ===================================================================== *)
(** * exporter.py *)
(* ===================================================================== *)

(** The values a record holds: [None], a string, an integer, a boolean, or
    a list of those. *)
Inductive scalar : Type :=
| SNone
| SStr (s : string)
| SInt (n : Z)
| SBool (b : bool).

Inductive value : Type :=
| VScalar (x : scalar)
| VList (xs : list scalar).

(** A record as the exporter receives it: a [dict] with string keys, an
    association list in insertion order. *)
Definition dict : Type := list (string * value).

Definition keys (item : dict) : list string := List.map fst item.

(** [item.get(k)]: [None] for a missing key. *)
Definition dict_get (item : dict) (k : string) : value :=
  match List.find (λ kv, String.eqb (fst kv) k) item with
  | Some (_, v) => v
  | None => VScalar SNone
  end.

(** The dictionary [_parse_single_job] returns. *)
Definition job_dict (job : Job) : dict :=
  [ ("jobId", VScalar (SStr (jobId job)));
    ("title", VScalar (SStr (title job)));
    ("description", VScalar (SStr (description job)));
    ("createdAt", VScalar (SStr (createdAt job)));
    ("jobType", VScalar (SStr (jobType job)));
    ("duration", VScalar (SStr (duration job)));
    ("budget", VScalar (SStr (budget job)));
    ("clientLocation", VScalar (SStr (clientLocation job)));
    ("clientPaymentVerification", VScalar (SBool (clientPaymentVerification job)));
    ("clientSpent", VScalar (SStr (clientSpent job)));
    ("clientReviews", VScalar (SInt (clientReviews job)));
    ("category", VScalar (SStr (category job)));
    ("skills", VList (List.map SStr (skills job))) ].

(** [str(v)] *)
Definition str_of_scalar (x : scalar) : string :=
  match x with
  | SNone => "None"
  | SStr s => s
  | SInt n => str_of_int n
  | SBool true => "True"
  | SBool false => "False"
  end.

Definition _scalar_or_join (v : value) : string :=
  match v with
  | VScalar SNone => ""
  | VList xs => Str.join ", " (List.map str_of_scalar xs)
  | VScalar x => str_of_scalar x
  end.

Definition preferred_order : list string :=
  [ "jobId"; "title"; "description"; "createdAt"; "jobType"; "duration";
    "budget"; "clientLocation"; "clientPaymentVerification"; "clientSpent";
    "clientReviews"; "category"; "skills" ].

(** The loop over [preferred_order]: a field that is in [fields] goes to
    [ordered] and leaves [fields]. *)
Fixpoint move_preferred (preferred ordered : list string)
    (fields : gset string) : list string * gset string :=
  match preferred with
  | [] => (ordered, fields)
  | field :: preferred' =>
      if decide (field ∈ fields)
      then move_preferred preferred' (ordered ++ [field]) (fields ∖ {[field]})
      else move_preferred preferred' ordered fields
  end.

(** [sorted(fields)]: strings compare by code points. *)
Definition sorted (fields : gset string) : list string :=
  merge_sort String.le (elements fields).

Definition _collect_fieldnames (data : list dict) : list string :=
  let fields : gset string :=
    foldl (λ fields item, fields ∪ list_to_set (keys item)) ∅ data in
  (* Keep deterministic order, moving common fields first. *)
  let '(ordered, fields) := move_preferred preferred_order [] fields in
  ordered ++ sorted fields.

(** [pandas.DataFrame(rows).columns] for a list of dictionaries: the keys
    in the order in which they first appear. *)
Fixpoint first_seen (seen : list string) (ks : list string) : list string :=
  match ks with
  | [] => seen
  | k :: ks' =>
      if bool_decide (k ∈ seen) then first_seen seen ks'
      else first_seen (seen ++ [k]) ks'
  end.

Definition dataframe_columns (rows : list (list (string * string)))
    : list string :=
  foldl (λ seen row, first_seen seen (List.map fst row)) [] rows.

(** A path [dir / name]. *)
Inductive Path : Type :=
| PathJoin (dir name : string).

(** What a written file holds. *)
Inductive file_content : Type :=
| JsonFile (records : list dict)
| CsvFile (header : list string) (rows : list (list string))
| ExcelFile (columns : list string) (rows : list (list (option string)))
| XmlFile (jobs : list (list (string * string))).

Definition flatten (item : dict) : list (string * string) :=
  List.map (λ kv, (fst kv, _scalar_or_join (snd kv))) item.

Definition row_get (row : list (string * string)) (k : string) : option string :=
  match List.find (λ kv, String.eqb (fst kv) k) row with
  | Some (_, v) => Some v
  | None => None
  end.

(** [pandas.DataFrame(rows)] for a list of dictionaries of strings: the
    columns, and for each row the cell of each column, missing where the row
    lacks the key. *)
Record DataFrame : Type := {
  df_columns : list string;
  df_rows : list (list (option string))
}.

Definition pd_DataFrame (rows : list (list (string * string))) : DataFrame :=
  let columns := dataframe_columns rows in
  {| df_columns := columns;
     df_rows := List.map (λ row, List.map (row_get row) columns) rows |}.

(** A path with a NUL character in it is refused by Python before the
    operating system is asked. *)
Definition has_nul (path : Path) : bool :=
  match path with
  | PathJoin dir name => Str.mem dir "000"%char || Str.mem name "000"%char
  end.

(** A tag [ElementTree] cannot serialise: one that opens a namespace with a
    brace and does not close it ([qname[1:].rsplit("}", 1)] then gives one
    piece where two are unpacked). *)
Definition unclosed_namespace (tag : string) : bool :=
  match tag with
  | String "{" rest => negb (Str.mem rest "}"%char)
  | _ => false
  end.

Section Exporter.

Variable output_dir : string.
(** The operating system: the [OSError] with which creating the file at a
    path, writing to it and closing it fails, if it does. *)
Variable os_write : Path → option string.
(** [DataFrame.to_excel(path, index=False)] of pandas. *)
Variable to_excel : DataFrame → Path → py unit.

(** Opening the file at [path] for writing and writing to it. *)
Definition write_file (path : Path) : py unit :=
  if has_nul path then Raise (ValueError "embedded null byte")
  else
    match os_write path with
    | Some name => Raise (OSError name)
    | None => Ok tt
    end.

Definition _export_json (data : list dict) (file_prefix : string)
    : py (Path * file_content) :=
  let path := PathJoin output_dir (file_prefix +:+ ".json") in
  _ ← write_file path;
  Ok (path, JsonFile data).

Definition _export_csv (data : list dict) (file_prefix : string)
    : py (Path * file_content) :=
  let path := PathJoin output_dir (file_prefix +:+ ".csv") in
  let fieldnames := _collect_fieldnames data in
  _ ← write_file path;
  let rows :=
    List.map (λ item,
              List.map (λ k, _scalar_or_join (dict_get item k)) fieldnames)
             data in
  Ok (path, CsvFile fieldnames rows).

Definition _export_excel (data : list dict) (file_prefix : string)
    : py (Path * file_content) :=
  let path := PathJoin output_dir (file_prefix +:+ ".xlsx") in
  (* Flatten sequences for Excel columns. *)
  let flattened := List.map flatten data in
  let df := pd_DataFrame flattened in
  _ ← to_excel df path;
  Ok (path, ExcelFile (df_columns df) (df_rows df)).

(** [tree.write] opens the file, then collects the tags of the tree, which
    is where a tag it cannot serialise raises; an error of the operating
    system comes first in either case. *)
Definition _export_xml (data : list dict) (file_prefix : string)
    : py (Path * file_content) :=
  let jobs := List.map flatten data in
  let path := PathJoin output_dir (file_prefix +:+ ".xml") in
  _ ← write_file path;
  if existsb (λ job, existsb (λ kv, unclosed_namespace (fst kv)) job) jobs
  then Raise (ValueError "not enough values to unpack (expected 2, got 1)")
  else Ok (path, XmlFile jobs).

Definition supported_formats : gset string :=
  {[ "json"; "csv"; "excel"; "xml" ]}.

Definition export (data : list dict) (fmt file_prefix : string)
    : py (Path * file_content) :=
  match data with
  | [] => Raise (ValueError "No data supplied for export.")
  | _ :: _ =>
      let fmt_lower := Str.lower fmt in
      if decide (fmt_lower ∉ supported_formats) then
        Raise (ValueError ("Unsupported export format: " +:+ fmt))
      else if String.eqb fmt_lower "json" then _export_json data file_prefix
      else if String.eqb fmt_lower "csv" then _export_csv data file_prefix
      else if String.eqb fmt_lower "excel" then _export_excel data file_prefix
      else if String.eqb fmt_lower "xml" then _export_xml data file_prefix
      else
        (* This should not be reached. *)
        Raise (RuntimeError ("Unhandled export format: " +:+ fmt_lower))
  end.

End Exporter.

(* ===================================================================== *)
(** * Notions the properties are stated with *)
(* ===================================================================== *)

(** ** Cleaned text *)

(** Every whitespace character of [s] is a space that follows a
    non-whitespace character; with [after_space] unset the text may not
    be empty behind a space, so it does not end in one. *)
Fixpoint single_spaced (after_space : bool) (s : string) : bool :=
  match s with
  | EmptyString => negb after_space
  | String c s' =>
      if Chr.is_space c
      then Ascii.eqb c " " && negb after_space && single_spaced true s'
      else single_spaced false s'
  end.

(** Words of non-whitespace characters separated by single spaces. *)
Definition normalized (s : string) : bool :=
  match s with
  | EmptyString => true
  | String _ _ => single_spaced true s
  end.

(** The description of the fixed points that only speaks of whitespace at
    the ends and of runs of whitespace. *)
Definition starts_with_space (s : string) : bool :=
  match s with
  | EmptyString => false
  | String c _ => Chr.is_space c
  end.

Fixpoint ends_with_space (s : string) : bool :=
  match s with
  | EmptyString => false
  | String c EmptyString => Chr.is_space c
  | String _ s' => ends_with_space s'
  end.

Fixpoint no_whitespace_run (after_space : bool) (s : string) : bool :=
  match s with
  | EmptyString => true
  | String c s' =>
      if Chr.is_space c then negb after_space && no_whitespace_run true s'
      else no_whitespace_run false s'
  end.

Definition trimmed_without_runs (s : string) : bool :=
  negb (starts_with_space s) && negb (ends_with_space s)
  && no_whitespace_run false s.

(** Every whitespace character of [s] is a space and no two are adjacent
    (what [sub_whitespace] leaves). *)
Fixpoint collapsed (after_space : bool) (s : string) : bool :=
  match s with
  | EmptyString => true
  | String c s' =>
      if Chr.is_space c
      then Ascii.eqb c " " && negb after_space && collapsed true s'
      else collapsed false s'
  end.

(** ** Skills *)

(** The entries of [l] that no earlier entry equals under [key]; [before]
    holds the entries that come before [l]. *)
Fixpoint first_occurrences (key : string → string) (before l : list string)
    : list string :=
  match l with
  | [] => []
  | x :: l' =>
      (if bool_decide (key x ∈ key <$> before) then [] else [x])
        ++ first_occurrences key (before ++ [x]) l'
  end.


(** ** The page parser *)

Section PageSpec.

Variable date_parser_parse : string → py Datetime.datetime.
Variable now : Datetime.datetime.

(** The record a card contributes to its page: the one its extraction
    returns, nothing when the extraction returns no record or raises. *)
Definition contribution (card : Card) : list Job :=
  match _parse_single_job date_parser_parse now card with
  | Ok (Some job) => [job]
  | Ok None => []
  | Raise _ => []
  end.

End PageSpec.

(** The emptiness invariant of a record. *)
Definition identified (job : Job) : Prop :=
  jobId job ≠ "" ∨ title job ≠ "" ∨ description job ≠ "".

(** The pages a run fetched. *)
Definition fetched_pages (log : list event) : list Z :=
  omap (λ e, match e with Fetched page => Some page | Slept => None end) log.

(** ** The record extractor *)

Section ExtractorSpec.

Variable date_parser_parse : string → py Datetime.datetime.
Variable now : Datetime.datetime.

(** The three fields that decide whether a card is a record, as
    [_parse_single_job] resolves them: the job id (a string or [None]),
    the title and the description. *)
Definition key_fields (card : Card) : py (option string * string * string) :=
  job_id ← resolve_job_id card;
  title_el ← card_select_one card Sel.title;
  desc_el ← card_select_one card Sel.description;
  Ok (job_id, text_of title_el, text_of desc_el).


End ExtractorSpec.

(** ** Sample inputs *)

(** A date parser that recognizes nothing. *)
Definition no_dates (text : string) : py Datetime.datetime :=
  Raise (ValueError "Unknown string format").

(** 2026-11-03T12:00:00+00:00 *)
Definition sample_now : Datetime.datetime := Datetime.utc 739922 12 0 0 0.

(** A card in which only the title selector finds an element. *)
Definition title_only_card (title_text : string) : Card :=
  {| card_attrs := [];
     card_select_one := λ sel,
       if String.eqb sel Sel.title
       then Ok (Some {| tag_attrs := []; tag_text := title_text;
                        tag_text_strip := title_text |})
       else Ok None;
     card_select := λ _, Ok [];
     card_text := title_text |}.

(** A card without attributes, links, title or description. *)
Definition blank_card : Card :=
  {| card_attrs := [];
     card_select_one := λ _, Ok None;
     card_select := λ _, Ok [];
     card_text := "" |}.

(** A card whose selector queries raise. *)
Definition broken_card : Card :=
  {| card_attrs := [];
     card_select_one := λ _, Raise (LibraryError "SelectorSyntaxError");
     card_select := λ _, Raise (LibraryError "SelectorSyntaxError");
     card_text := "" |}.

(** A card with a title and a posting time too far back to be a date. *)
Definition ancient_card : Card :=
  {| card_attrs := [];
     card_select_one := λ sel,
       if String.eqb sel Sel.title
       then Ok (Some {| tag_attrs := []; tag_text := "Data engineer";
                        tag_text_strip := "Data engineer" |})
       else if String.eqb sel Sel.posted_on
       then Ok (Some {| tag_attrs := []; tag_text := "Posted 200000 weeks ago";
                        tag_text_strip := "Posted 200000 weeks ago" |})
       else Ok None;
     card_select := λ _, Ok [];
     card_text := "Data engineer Posted 200000 weeks ago" |}.


(** A page whose first selector finds the given cards. *)
Definition soup_of (cards : list Card) : Soup :=
  {| soup_select := λ sel, if String.eqb sel Sel.air_card then cards else [] |}.

(** Ten cards, titled "Job 0" to "Job 9". *)
Definition ten_cards : list Card :=
  List.map (λ n, title_only_card ("Job " +:+ str_of_int n)) (seqZ 0 10).

(** A search address with a page placeholder, a network that always
    answers, and pages of ten cards. *)
Definition sample_template : string :=
  "https://www.upwork.com/nx/search/jobs/?q=python&page={page}".

Definition always_html (url : string) : option string := Some "<html>".

Definition ten_per_page (html : string) : Soup := soup_of ten_cards.

(** The delay of the constructor's default, and one [time.sleep]
    refuses. *)
Definition default_delay : float := 2%float.
Definition negative_delay : float := (-1)%float.

(** An operating system that grants every pause. *)
Definition granted (secs : float) : option string := None.

(** ** Page addresses *)

(** A template made of pieces of text and [{page}] placeholders. *)
Inductive piece : Type :=
| Text (s : string)
| PageField.

Definition is_brace (c : ascii) : bool := Ascii.eqb c "{" || Ascii.eqb c "}".

Definition brace_free (s : string) : bool := Str.all (λ c, negb (is_brace c)) s.

Definition plain_piece (p : piece) : Prop :=
  match p with
  | Text s => brace_free s = true
  | PageField => True
  end.

Fixpoint template_of (pieces : list piece) : string :=
  match pieces with
  | [] => ""
  | Text s :: pieces' => s +:+ template_of pieces'
  | PageField :: pieces' => "{page}" +:+ template_of pieces'
  end.

(** The template with every placeholder replaced by the page number. *)
Fixpoint filled (page : Z) (pieces : list piece) : string :=
  match pieces with
  | [] => ""
  | Text s :: pieces' => s +:+ filled page pieces'
  | PageField :: pieces' => str_of_int page +:+ filled page pieces'
  end.




(** ** Exports *)

(** The fields present in the records. *)
Definition fields_of (data : list dict) : gset string :=
  foldl (λ fields item, fields ∪ list_to_set (keys item)) ∅ data.

(** A record as a file of samples may hold it: the keys in another order
    than the scraper writes them. *)
Definition foreign_record : dict :=
  [ ("title", VScalar (SStr "Build a scraper"));
    ("description", VScalar (SStr "Collect job listings"));
    ("jobId", VScalar (SStr "0123456789")) ].


(** ** The outside of the exporter *)

(** [after w r]: the result [r] once the effect [w] has succeeded, the
    error of [w] otherwise. *)
Definition after {A} (w : py unit) (r : A) : py A := _ ← w; Ok r.

(** An operating system on which every file can be written, and a pandas
    that writes every data frame. *)
Definition writable (path : Path) : option string := None.
Definition excel_ready (df : DataFrame) (path : Path) : py unit := Ok tt.




(** ** Long numbers *)

(** The text of [n] digits 7. *)
Fixpoint sevens (n : nat) : string :=
  match n with
  | O => ""
  | S n' => String "7" (sevens n')
  end.

(** ** Relative times *)

Definition relative_units : list string :=
  ["minute"; "minutes"; "hour"; "hours"; "day"; "days"; "week"; "weeks"].

(** The length of a unit in microseconds. *)
Definition unit_microseconds (unit : string) : Z :=
  if Str.contains "minute" unit then Datetime.us_per_minute
  else if Str.contains "hour" unit then Datetime.us_per_hour
  else if Str.contains "day" unit then Datetime.us_per_day
  else Datetime.us_per_week.

(** ** The records of a page *)

Section PageRecords.

Variable date_parser_parse : string → py Datetime.datetime.
Variable now : Datetime.datetime.
Variable BeautifulSoup : string → Soup.
Variable search_url_template : string.
Variable http_get : string → option string.

(** The records the orchestrator gets from a page: those the page parser
    returns for the text fetched, none when the fetch gave no text. *)
Definition page_records (page : Z) : list Job :=
  match fetch_search_page search_url_template http_get page with
  | Ok html =>
      match snd (parse_jobs_from_html date_parser_parse now BeautifulSoup html) with
      | Ok jobs => jobs
      | Raise _ => []
      end
  | Raise _ => []
  end.

End PageRecords.

(** ** The card selectors, in the order the page parser tries them *)
Definition card_selectors : list string :=
  [Sel.air_card; Sel.job_tile; Sel.section; Sel.article].

(** ** Texts without a given character *)
Definition free_of (c : ascii) (s : string) : bool :=
  Str.all (λ a, negb (Ascii.eqb a c)) s.

(** ** Pauses *)

(** Every pause of the log is followed at once by the fetch of a page. *)
Fixpoint pauses_ok (log : list event) : bool :=
  match log with
  | [] => true
  | Slept :: rest =>
      match rest with
      | Fetched _ :: _ => pauses_ok rest
      | _ => false
      end
  | Fetched _ :: rest => pauses_ok rest
  end.

(* ===================================================================== *)
(** * Properties *)
(* ===================================================================== *)

(** ** Strings *)

Arguments Chr.is_space : simpl never.
Arguments Chr.is_digit : simpl never.
Arguments Chr.lower : simpl never.

Lemma app_empty_r (s : string) : s +:+ "" = s.
Proof. induction s as [|c s IH]; [done|]. unfold String.app in *. simpl. by rewrite IH. Qed.

Lemma app_assoc_str (a b c : string) : (a +:+ b) +:+ c = a +:+ b +:+ c.
Proof.
  induction a as [|x a IH]; [done|].
  unfold String.app in *. simpl. by rewrite IH.
Qed.

Lemma app_cons (c : ascii) (a b : string) :
  String c a +:+ b = String c (a +:+ b).
Proof. done. Qed.

Lemma is_space_space : Chr.is_space " " = true.
Proof. done. Qed.


(** ** [clean_text] *)

Lemma sub_whitespace_collapsed b s : collapsed b (sub_whitespace b s) = true.
Proof.
  revert b. induction s as [|c s IH]; intros b; [done|].
  simpl. destruct (Chr.is_space c) eqn:Hc.
  - destruct b; [apply IH|]. simpl. by rewrite IH.
  - simpl. rewrite Hc. apply IH.
Qed.

Lemma lstrip_collapsed s :
  collapsed false s = true →
  collapsed true (Str.lstrip Chr.is_space s) = true
  ∧ starts_with_space (Str.lstrip Chr.is_space s) = false.
Proof.
  destruct s as [|c s]; [done|]. simpl.
  destruct (Chr.is_space c) eqn:Hc.
  - intros (_ & Hs)%andb_prop. split.
    + destruct s as [|d s]; [done|]. simpl in *.
      destruct (Chr.is_space d) eqn:Hd; [by rewrite andb_false_r in Hs|].
      simpl. by rewrite Hd.
    + destruct s as [|d s]; [done|]. simpl in *.
      destruct (Chr.is_space d) eqn:Hd; [by rewrite andb_false_r in Hs|].
      simpl. by rewrite Hd.
  - intros Hs. simpl. by rewrite Hc.
Qed.

Lemma rstrip_single_spaced b s :
  collapsed b s = true →
  Str.rstrip Chr.is_space s = "" ∨ single_spaced b (Str.rstrip Chr.is_space s) = true.
Proof.
  revert b. induction s as [|c s IH]; intros b; [by left|].
  simpl. destruct (Chr.is_space c) eqn:Hc.
  - intros ((Hsp & Hb)%andb_prop & Hs)%andb_prop.
    destruct (IH _ Hs) as [-> | Hr]; [by left|].
    destruct (Str.rstrip Chr.is_space s) as [|d r] eqn:Hrs; [by left|].
    right. simpl Str.is_empty. cbn [andb]. cbn [single_spaced].
    rewrite Hc, Hsp, Hb. done.
  - intros Hs. right. cbn [andb single_spaced]. rewrite Hc.
    destruct (IH _ Hs) as [-> | Hr]; done.
Qed.

Lemma clean_text_normalized s : normalized (clean_text s) = true.
Proof.
  unfold clean_text, Str.strip.
  pose proof (sub_whitespace_collapsed false s) as H.
  apply lstrip_collapsed in H as [H1 H2].
  destruct (rstrip_single_spaced _ _ H1) as [-> | H3]; [done|].
  unfold normalized. by destruct (Str.rstrip _ _).
Qed.

Lemma single_spaced_weaken s : single_spaced true s = true → single_spaced false s = true.
Proof.
  destruct s as [|c s]; [done|]. simpl.
  destruct (Chr.is_space c); [|done]. by rewrite andb_false_r.
Qed.

Lemma single_spaced_sub b s :
  single_spaced b s = true → sub_whitespace b s = s.
Proof.
  revert b. induction s as [|c s IH]; intros b; [done|].
  simpl. destruct (Chr.is_space c) eqn:Hc.
  - intros ((Hsp & Hb)%andb_prop & Hs)%andb_prop.
    apply Ascii.eqb_eq in Hsp as ->. destruct b; [done|].
    by rewrite (IH _ Hs).
  - intros Hs. by rewrite (IH _ Hs).
Qed.

Lemma single_spaced_rstrip b s :
  single_spaced b s = true → Str.rstrip Chr.is_space s = s.
Proof.
  revert b. induction s as [|c s IH]; intros b; [done|].
  simpl. destruct (Chr.is_space c) eqn:Hc.
  - intros ((Hsp & Hb)%andb_prop & Hs)%andb_prop.
    rewrite (IH _ Hs). by destruct s.
  - intros Hs. by rewrite (IH _ Hs).
Qed.

Lemma single_spaced_lstrip s :
  single_spaced true s = true → Str.lstrip Chr.is_space s = s.
Proof.
  destruct s as [|c s]; [done|]. simpl.
  destruct (Chr.is_space c); [|done]. by rewrite andb_false_r.
Qed.

Lemma normalized_clean_text s : normalized s = true → clean_text s = s.
Proof.
  destruct s as [|c s]; [done|]. unfold normalized. intros H.
  unfold clean_text, Str.strip.
  rewrite (single_spaced_sub false) by by apply single_spaced_weaken.
  rewrite single_spaced_lstrip by done.
  by apply (single_spaced_rstrip true).
Qed.

(** C10, as amended.  [clean_text] is idempotent, and its fixed points are
    exactly the texts made of words separated by single spaces: no
    whitespace at either end, and every whitespace character inside is one
    space standing between two other characters. *)
Theorem clean_text_idempotent_fixed_points :
  (∀ s, clean_text (clean_text s) = clean_text s)
  ∧ (∀ s, clean_text s = s ↔ normalized s = true).
Proof.
  split.
  - intros s. apply normalized_clean_text, clean_text_normalized.
  - intros s. split.
    + intros <-. apply clean_text_normalized.
    + apply normalized_clean_text.
Qed.

(** C10, as stated, fails: the text a TAB b has no whitespace at its ends
    and no run of two whitespace characters, and [clean_text] turns its
    tabulation into a space. *)
Lemma clean_text_fixed_points_counterexample :
  ¬ (∀ s, clean_text s = s ↔ trimmed_without_runs s = true).
Proof.
  intros H.
  destruct (H (String "a" (String "009" (String "b" "")))) as [_ H2].
  specialize (H2 eq_refl). vm_compute in H2. discriminate H2.
Qed.

(** A fixed point of [clean_text] does satisfy the description by ends
    and runs; the converse is what fails. *)
Lemma normalized_trimmed_without_runs s :
  normalized s = true → trimmed_without_runs s = true.
Proof.
  destruct s as [|c s]; [done|]. unfold normalized, trimmed_without_runs.
  intros H.
  assert (Hgen : ∀ b t, single_spaced b t = true →
            ends_with_space t = false ∧ no_whitespace_run b t = true).
  { clear. intros b t. revert b. induction t as [|c t IH]; intros b; [done|].
    cbn [single_spaced no_whitespace_run]. destruct (Chr.is_space c) eqn:Hc.
    - intros ((Hsp & Hb)%andb_prop & Hs)%andb_prop.
      destruct (IH _ Hs) as [H1 H2]. rewrite Hb, H2. split; [|done].
      destruct t; [done|]. exact H1.
    - intros Hs. destruct (IH _ Hs) as [H1 H2]. split; [|done].
      simpl. destruct t; [done|]. exact H1. }
  destruct (Hgen _ _ H) as [H1 H2].
  rewrite H1. cbn [negb andb].
  simpl in H |- *. destruct (Chr.is_space c) eqn:Hc.
  - by rewrite andb_false_r in H.
  - simpl. apply (Hgen false). exact H.
Qed.

(** ** [parse_skills_list] *)

Lemma skills_loop_first_occurrences raw cleaned (seen : gset string) before :
  (∀ k, k ∈ seen ↔ k ∈ Str.lower <$> before) →
  skills_loop raw cleaned seen
  = cleaned ++ first_occurrences Str.lower before
                 (List.filter Str.truthy (List.map clean_text raw)).
Proof.
  revert cleaned seen before.
  induction raw as [|r raw IH]; intros cleaned seen before Hseen.
  { simpl. by rewrite app_nil_r. }
  cbn [skills_loop List.map List.filter]. unfold Str.truthy at 1.
  destruct (Str.is_empty (clean_text r)) eqn:He; cbn [negb].
  { by apply IH. }
  cbn [first_occurrences].
  destruct (decide (Str.lower (clean_text r) ∈ seen)) as [Hin|Hnin].
  - rewrite bool_decide_eq_true_2 by by apply Hseen.
    cbn [app]. apply IH. intros k. rewrite fmap_app.
    rewrite elem_of_app, <- Hseen. cbn. rewrite list_elem_of_singleton.
    split; [by left|]. by intros [?| ->].
  - rewrite bool_decide_eq_false_2 by by rewrite <- Hseen.
    rewrite (IH (cleaned ++ [clean_text r]) _ (before ++ [clean_text r])).
    + by rewrite <- app_assoc.
    + intros k. rewrite fmap_app, elem_of_app, <- Hseen. cbn.
      rewrite list_elem_of_singleton, elem_of_union, elem_of_singleton. tauto.
Qed.

Lemma first_occurrences_fresh key before l y :
  y ∈ first_occurrences key before l → key y ∉ key <$> before.
Proof.
  revert before. induction l as [|x l IH]; intros before; cbn.
  { by intros ?%elem_of_nil. }
  rewrite elem_of_app. intros [Hy|Hy].
  - case_bool_decide as Hx; [by apply elem_of_nil in Hy|].
    by apply list_elem_of_singleton in Hy as ->.
  - apply IH in Hy. rewrite fmap_app in Hy.
    intros Hin. apply Hy, elem_of_app. by left.
Qed.

Lemma first_occurrences_NoDup key before l :
  NoDup (key <$> first_occurrences key before l).
Proof.
  revert before. induction l as [|x l IH]; intros before; cbn.
  { constructor. }
  case_bool_decide as Hx; cbn; [apply IH|].
  constructor; [|apply IH].
  intros (y & Hk & Hy)%list_elem_of_fmap.
  apply first_occurrences_fresh in Hy. rewrite fmap_app in Hy.
  apply Hy. rewrite elem_of_app. right. cbn. rewrite Hk. left.
Qed.

Lemma first_occurrences_sublist key before l :
  first_occurrences key before l `sublist_of` l.
Proof.
  revert before. induction l as [|x l IH]; intros before; cbn; [done|].
  case_bool_decide; cbn; [apply sublist_cons|apply sublist_skip]; apply IH.
Qed.



(** ** The error monad *)

(** Strips the binds in front of an outcome [H : ... = Ok _], naming the
    value each of them gave. *)
Ltac py_inv H :=
  repeat match type of H with
         | match ?m with Ok _ => _ | Raise _ => _ end = Ok _ =>
             let E := fresh "E" in
             destruct m eqn:E; [|discriminate H]
         end.

(** ** The record extractor *)

Section ExtractorProps.

Variable date_parser_parse : string → py Datetime.datetime.
Variable now : Datetime.datetime.

Local Abbreviation parse_single_job := (_parse_single_job date_parser_parse now).

Lemma truthy_ne (s : string) : Str.truthy s = true ↔ s ≠ "".
Proof. destruct s; cbn; split; done. Qed.

Lemma or_empty_ne o : or_empty o ≠ "" ↔ truthy_opt o = true.
Proof.
  destruct o as [s|]; cbn; [|done].
  destruct s; cbn; split; done.
Qed.

Lemma parse_single_job_Some card job :
  parse_single_job card = Ok (Some job) →
  ∃ job_id,
    key_fields card = Ok (job_id, title job, description job)
    ∧ jobId job = or_empty job_id
    ∧ identified job.
Proof.
  unfold _parse_single_job, key_fields, mbind, py_bind, bind. intros H.
  py_inv H.
  match type of H with (if ?b then _ else _) = _ => destruct b eqn:Hb end;
    [discriminate H|].
  injection H as <-. cbn. eexists. split; [done|]. split; [done|].
  apply negb_false_iff in Hb. unfold identified. cbn.
  apply orb_prop in Hb as [[Hb|Hb]%orb_prop|Hb].
  - left. by apply or_empty_ne.
  - right. left. by apply truthy_ne.
  - right. right. by apply truthy_ne.
Qed.




(** Every record the page parser collects comes from a card. *)
Lemma parse_cards_contributions cards jobs :
  parse_cards date_parser_parse now cards jobs
  = Ok (jobs ++ List.flat_map (contribution date_parser_parse now) cards).
Proof.
  revert jobs. induction cards as [|card cards IH]; intros jobs.
  { cbn. by rewrite app_nil_r. }
  cbn [parse_cards List.flat_map]. unfold contribution at 1.
  destruct (parse_single_job card) as [[job|]|e]; cbn;
    rewrite IH; by rewrite <- ?app_assoc.
Qed.

Lemma contribution_identified card job :
  job ∈ contribution date_parser_parse now card → identified job.
Proof.
  unfold contribution.
  destruct (parse_single_job card) as [[job'|]|e] eqn:E;
    [|by intros ?%elem_of_nil..].
  intros ->%list_elem_of_singleton.
  by destruct (parse_single_job_Some _ _ E) as (? & _ & _ & ?).
Qed.

End ExtractorProps.

(** ** The page parser *)

Section PageProps.

Variable date_parser_parse : string → py Datetime.datetime.
Variable now : Datetime.datetime.
Variable BeautifulSoup : string → Soup.

Lemma parse_jobs_from_html_returns html :
  ∃ jobs, snd (parse_jobs_from_html date_parser_parse now BeautifulSoup html)
          = Ok jobs
          ∧ Forall identified jobs.
Proof.
  unfold parse_jobs_from_html. destruct (Str.is_empty html).
  { exists []. split; [done|constructor]. }
  destruct (select_job_cards _) as [ran cards]. cbn [snd].
  rewrite parse_cards_contributions. eexists. split; [done|].
  cbn. apply Forall_forall. intros job Hjob%list_elem_of_In.
  apply List.in_flat_map in Hjob as (card & _ & Hjob).
  eapply contribution_identified. by apply list_elem_of_In.
Qed.

End PageProps.





(** A card with only a title yields a record with an empty id and an empty
    description; a card with nothing yields no record. *)
Example title_only_record :
  _parse_single_job no_dates sample_now (title_only_card "  Python   developer ")
  = Ok (Some {| jobId := ""; title := "Python developer"; description := "";
                createdAt := ""; jobType := ""; duration := ""; budget := "";
                clientLocation := ""; clientPaymentVerification := false;
                clientSpent := ""; clientReviews := 0; category := "";
                skills := [] |}).
Proof. vm_compute. reflexivity. Qed.

Example blank_card_no_record :
  _parse_single_job no_dates sample_now blank_card = Ok None.
Proof. vm_compute. reflexivity. Qed.

(** C5.  The page parser returns a list for every page.  On the empty page
    it returns the empty list and runs no selector.  A card whose
    extraction raises is skipped and nothing of the error reaches the
    caller: the list returned holds, in order, the records of the cards
    that yield one, and is the list of the page without the raising
    card. *)
Theorem page_parser_skips_raising_cards
    (date_parser_parse : string → py Datetime.datetime)
    (now : Datetime.datetime) (BeautifulSoup : string → Soup) :
  parse_jobs_from_html date_parser_parse now BeautifulSoup "" = ([], Ok [])
  ∧ (∀ html, ∃ jobs,
       snd (parse_jobs_from_html date_parser_parse now BeautifulSoup html) = Ok jobs)
  ∧ (∀ html, html ≠ "" →
       snd (parse_jobs_from_html date_parser_parse now BeautifulSoup html)
       = Ok (List.flat_map (contribution date_parser_parse now)
               (snd (select_job_cards (BeautifulSoup html)))))
  ∧ (∀ before card after jobs e,
       _parse_single_job date_parser_parse now card = Raise e →
       parse_cards date_parser_parse now (before ++ card :: after) jobs
       = parse_cards date_parser_parse now (before ++ after) jobs).
Proof.
  split; [done|]. split; [|split].
  - intros html.
    destruct (parse_jobs_from_html_returns date_parser_parse now BeautifulSoup html)
      as (jobs & H & _). by exists jobs.
  - intros html Hne. unfold parse_jobs_from_html.
    destruct html; [done|]. cbn [Str.is_empty].
    destruct (select_job_cards _) as [ran cards]. cbn [snd].
    by rewrite parse_cards_contributions, app_nil_l.
  - intros before card after jobs e He.
    rewrite !parse_cards_contributions, !List.flat_map_app. cbn.
    unfold contribution at 2. by rewrite He.
Qed.

Lemma page_parser_skips_raising_cards_witness :
  parse_cards no_dates sample_now
    ([title_only_card "First"] ++ broken_card :: [title_only_card "Second"]) []
  = parse_cards no_dates sample_now
      ([title_only_card "First"] ++ [title_only_card "Second"]) [].
Proof.
  destruct (page_parser_skips_raising_cards no_dates sample_now (λ _, soup_of []))
    as (_ & _ & _ & H).
  apply (H _ broken_card _ _ (LibraryError "SelectorSyntaxError")).
  vm_compute. reflexivity.
Defined.

(** A page of three cards of which the second raises while its posting
    time is resolved: the records of the other two are returned. *)
Example page_with_a_raising_card :
  parse_jobs_from_html no_dates sample_now
    (λ _, soup_of [title_only_card "First"; ancient_card; title_only_card "Second"])
    "<html>"
  = ([Sel.air_card],
     Ok [ {| jobId := ""; title := "First"; description := "";
             createdAt := ""; jobType := ""; duration := ""; budget := "";
             clientLocation := ""; clientPaymentVerification := false;
             clientSpent := ""; clientReviews := 0; category := "";
             skills := [] |};
          {| jobId := ""; title := "Second"; description := "";
             createdAt := ""; jobType := ""; duration := ""; budget := "";
             clientLocation := ""; clientPaymentVerification := false;
             clientSpent := ""; clientReviews := 0; category := "";
             skills := [] |} ])
  ∧ _parse_single_job no_dates sample_now ancient_card = Raise OverflowError.
Proof. vm_compute. split; reflexivity. Qed.

(** ** The orchestrator *)

Section ScrapeProps.

Variable date_parser_parse : string → py Datetime.datetime.
Variable now : Datetime.datetime.
Variable BeautifulSoup : string → Soup.
Variable search_url_template : string.
Variable max_items : Z.
Variable delay_seconds : float.
Variable http_get : string → option string.
Variable os_sleep : float → option string.

Local Abbreviation loop :=
  (scrape_loop date_parser_parse now BeautifulSoup search_url_template
     max_items delay_seconds http_get os_sleep).
Local Abbreviation fetch := (fetch_search_page search_url_template http_get).
Local Abbreviation parse :=
  (parse_jobs_from_html date_parser_parse now BeautifulSoup).

Lemma append_jobs_take (jobs page_jobs : list Job) :
  Z.of_nat (length jobs) < max_items →
  append_jobs max_items jobs page_jobs
  = jobs ++ take (Z.to_nat (max_items - Z.of_nat (length jobs))) page_jobs.
Proof.
  revert jobs. induction page_jobs as [|job page_jobs IH]; intros jobs Hlt.
  { cbn [append_jobs]. by rewrite take_nil, app_nil_r. }
  cbn [append_jobs]. rewrite length_app. cbn [length].
  replace (Z.to_nat (max_items - Z.of_nat (length jobs)))
    with (S (Z.to_nat (max_items - Z.of_nat (length jobs) - 1))) by lia.
  cbn [take]. destruct (Z.leb_spec max_items (Z.of_nat (length jobs + 1))).
  - replace (Z.to_nat (max_items - Z.of_nat (length jobs) - 1)) with 0%nat by lia.
    by rewrite take_0.
  - rewrite IH by (rewrite length_app; cbn; lia).
    rewrite <- app_assoc, length_app. cbn. do 3 f_equal. lia.
Qed.

Lemma append_jobs_length (jobs page_jobs : list Job) :
  Z.of_nat (length jobs) < max_items →
  Z.of_nat (length (append_jobs max_items jobs page_jobs)) ≤ max_items.
Proof.
  intros Hlt. rewrite append_jobs_take by done.
  rewrite length_app, length_take. lia.
Qed.

Lemma fetch_returns page :
  returns (_build_url search_url_template page) → returns (fetch page).
Proof.
  intros [url Hurl]. unfold fetch_search_page. rewrite Hurl. cbn.
  destruct (http_get url); by eexists.
Qed.

Lemma scrape_loop_cap max_pages pages jobs log :
  (∀ page, returns (_build_url search_url_template page)) →
  time_sleep os_sleep delay_seconds = Ok tt →
  Z.of_nat (length jobs) ≤ max_items →
  ∃ jobs' log',
    loop max_pages pages jobs log = Ok (jobs', log')
    ∧ Z.of_nat (length jobs') ≤ max_items.
Proof.
  intros Hurl Hsleep. revert jobs log.
  induction pages as [|page pages IH]; intros jobs log Hle.
  { by exists jobs, log. }
  cbn [scrape_loop].
  destruct (Z.leb_spec max_items (Z.of_nat (length jobs))) as [|Hlt].
  { by exists jobs, log. }
  destruct (fetch_returns page (Hurl page)) as [html ->]. cbn.
  destruct (Str.is_empty html); [by eexists _, _|].
  destruct (parse_jobs_from_html_returns date_parser_parse now BeautifulSoup html)
    as (page_jobs & -> & _). cbn.
  destruct (_ && _); [rewrite Hsleep; cbn|]; apply IH; by apply append_jobs_length.
Qed.

(** Whatever the template and the delay, a loop that returns keeps the
    cap. *)
Lemma scrape_loop_bound max_pages pages jobs log jobs' log' :
  loop max_pages pages jobs log = Ok (jobs', log') →
  Z.of_nat (length jobs) ≤ max_items →
  Z.of_nat (length jobs') ≤ max_items.
Proof.
  revert jobs log. induction pages as [|page pages IH]; intros jobs log H Hle.
  { cbn in H. by injection H as <- <-. }
  cbn [scrape_loop] in H.
  destruct (Z.leb_spec max_items (Z.of_nat (length jobs))) as [|Hlt].
  { by injection H as <- <-. }
  unfold mbind, py_bind, bind in H.
  destruct (fetch page) as [html|]; [|done].
  destruct (Str.is_empty html). { by injection H as <- <-. }
  destruct (snd (parse html)) as [page_jobs|]; [|done].
  destruct (_ && _).
  - destruct (time_sleep os_sleep delay_seconds); [|done].
    eapply IH; [exact H|]. by apply append_jobs_length.
  - eapply IH; [exact H|]. by apply append_jobs_length.
Qed.

Lemma scrape_loop_cap_reached max_pages pages jobs log :
  max_items ≤ Z.of_nat (length jobs) →
  loop max_pages pages jobs log = Ok (jobs, log).
Proof.
  intros Hle. destruct pages as [|page pages]; [done|].
  cbn [scrape_loop]. by destruct (Z.leb_spec max_items (Z.of_nat (length jobs))); [|lia].
Qed.

End ScrapeProps.

(** C4, as amended.  With a cap [max_items >= 0], a run of [scrape] that
    returns gives at most [max_items] records, whatever the pages hold;
    and [scrape] returns when every page address can be built from the
    template and [time.sleep] accepts the delay.  The cap is checked before
    each page: once it is reached no further page is fetched.  The records
    of a page are appended up to the remaining capacity.  With a cap of 5
    over pages of 10 records each and at least two pages allowed, the run
    returns exactly 5 records, those of the first page, and fetches that
    page only, whatever the delay. *)
Theorem scrape_respects_cap
    (date_parser_parse : string → py Datetime.datetime)
    (now : Datetime.datetime) (BeautifulSoup : string → Soup)
    (search_url_template : string) (max_items : Z) (delay_seconds : float)
    (http_get : string → option string) (os_sleep : float → option string) :
  0 ≤ max_items →
  (∀ max_pages jobs,
     scrape date_parser_parse now BeautifulSoup search_url_template
       max_items delay_seconds http_get os_sleep max_pages = Ok jobs →
     Z.of_nat (length jobs) ≤ max_items)
  ∧ ((∀ page, returns (_build_url search_url_template page)) →
     time_sleep os_sleep delay_seconds = Ok tt →
     ∀ max_pages, ∃ jobs log,
       scrape_run date_parser_parse now BeautifulSoup search_url_template
         max_items delay_seconds http_get os_sleep max_pages = Ok (jobs, log)
       ∧ scrape date_parser_parse now BeautifulSoup search_url_template
           max_items delay_seconds http_get os_sleep max_pages = Ok jobs
       ∧ Z.of_nat (length jobs) ≤ max_items)
  ∧ (∀ max_pages pages jobs log,
       max_items ≤ Z.of_nat (length jobs) →
       scrape_loop date_parser_parse now BeautifulSoup search_url_template
         max_items delay_seconds http_get os_sleep max_pages pages jobs log
       = Ok (jobs, log))
  ∧ (∀ jobs page_jobs,
       Z.of_nat (length jobs) < max_items →
       append_jobs max_items jobs page_jobs
       = jobs ++ take (Z.to_nat (max_items - Z.of_nat (length jobs))) page_jobs)
  ∧ (max_items = 5 →
     ∀ max_pages, 2 ≤ max_pages →
     (∀ page, ∃ html page_jobs,
        fetch_search_page search_url_template http_get page = Ok html
        ∧ html ≠ ""
        ∧ snd (parse_jobs_from_html date_parser_parse now BeautifulSoup html)
          = Ok page_jobs
        ∧ length page_jobs = 10%nat) →
     ∃ jobs,
       scrape_run date_parser_parse now BeautifulSoup search_url_template
         max_items delay_seconds http_get os_sleep max_pages = Ok (jobs, [Fetched 1])
       ∧ length jobs = 5%nat
       ∧ Z.of_nat (length (fetched_pages [Fetched 1])) < max_pages).
Proof.
  intros Hcap. split; [|split; [|split; [|split]]].
  - intros max_pages jobs. unfold scrape, scrape_run, mbind, py_bind, bind.
    destruct (scrape_loop _ _ _ _ _ _ _ _ _ _ _ _) as [[jobs' log]|] eqn:Hrun;
      [|done].
    intros [= <-]. cbn [fst].
    eapply scrape_loop_bound; [exact Hrun|]. cbn. lia.
  - intros Hurl Hsleep max_pages. unfold scrape, scrape_run.
    destruct (scrape_loop_cap date_parser_parse now BeautifulSoup
                search_url_template max_items delay_seconds http_get os_sleep max_pages
                (seqZ 1 max_pages) [] [] Hurl Hsleep) as (jobs & log & Hrun & Hlen).
    { cbn. lia. }
    exists jobs, log. by rewrite Hrun.
  - intros max_pages pages jobs log. apply scrape_loop_cap_reached.
  - apply append_jobs_take.
  - intros -> max_pages Hpages Hten. unfold scrape_run.
    rewrite seqZ_cons by lia. cbn [scrape_loop length].
    change (5 <=? Z.of_nat 0) with false. cbn iota.
    destruct (Hten 1) as (html & page_jobs & -> & Hne & Hparse & Hlen).
    cbn [mbind py_bind bind].
    destruct html; [done|]. cbn [Str.is_empty]. rewrite Hparse.
    cbn [mbind py_bind bind].
    rewrite append_jobs_take by (cbn; lia). cbn [length app].
    change (Z.to_nat (5 - Z.of_nat 0)) with 5%nat.
    assert (Hfive : length (take 5 page_jobs) = 5%nat).
    { rewrite length_take. lia. }
    rewrite Hfive. change (Z.of_nat 5 <? 5) with false.
    rewrite andb_false_r.
    rewrite scrape_loop_cap_reached by (rewrite Hfive; lia).
    eexists. split; [done|]. split; [done|]. cbn. lia.
Qed.

(** ** Page addresses *)



Section UrlProps.

Variable page : Z.

Lemma str_format_text s rest :
  brace_free s = true →
  str_format page None (s +:+ rest)
  = r ← str_format page None rest; Ok (s +:+ r).
Proof.
  induction s as [|c s IH]; intros Hs.
  { change ("" +:+ rest) with rest. by destruct (str_format page None rest). }
  apply andb_prop in Hs as [Hc Hs]. rewrite app_cons. cbn [str_format].
  unfold is_brace in Hc. apply negb_true_iff, orb_false_elim in Hc as [-> ->].
  rewrite (IH Hs). by destruct (str_format page None rest).
Qed.

Lemma str_format_page_field rest :
  str_format page None ("{page}" +:+ rest)
  = r ← str_format page None rest; Ok (str_of_int page +:+ r).
Proof. done. Qed.

Lemma str_format_pieces pieces :
  Forall plain_piece pieces →
  str_format page None (template_of pieces) = Ok (filled page pieces).
Proof.
  induction 1 as [|p pieces Hp _ IH]; [done|].
  destruct p as [s|]; cbn [template_of filled].
  - by rewrite str_format_text, IH.
  - by rewrite str_format_page_field, IH.
Qed.

End UrlProps.

Lemma build_url_pieces page pieces :
  Forall plain_piece pieces →
  Str.contains "{page}" (template_of pieces) = true →
  _build_url (template_of pieces) page = Ok (filled page pieces).
Proof. unfold _build_url. intros Hplain ->. by apply str_format_pieces. Qed.




(** With the placeholder in it the template is a format string: another
    field in braces makes the call raise, and doubled braces are
    unescaped instead of substituted. *)
Example build_url_other_field :
  _build_url "https://www.upwork.com/nx/search/jobs/?q={query}&page={page}" 1
  = Raise (KeyError "query").
Proof. vm_compute. reflexivity. Qed.

Example build_url_doubled_braces :
  _build_url "https://www.upwork.com/nx/search/jobs/?page={{page}}" 1
  = Ok "https://www.upwork.com/nx/search/jobs/?page={page}".
Proof. vm_compute. reflexivity. Qed.

(** ** The sample run *)

Lemma sample_template_url page :
  _build_url sample_template page
  = Ok ("https://www.upwork.com/nx/search/jobs/?q=python&page=" +:+ str_of_int page).
Proof.
  rewrite <- (app_empty_r (str_of_int page)).
  apply (build_url_pieces page
           [Text "https://www.upwork.com/nx/search/jobs/?q=python&page=";
            PageField]).
  - repeat constructor.
  - reflexivity.
Qed.

Lemma scrape_respects_cap_witness :
  ∃ jobs,
    scrape_run no_dates sample_now ten_per_page sample_template 5
      default_delay always_html granted 3
    = Ok (jobs, [Fetched 1])
    ∧ length jobs = 5%nat
    ∧ Z.of_nat (length (fetched_pages [Fetched 1])) < 3.
Proof.
  destruct (scrape_respects_cap no_dates sample_now ten_per_page
              sample_template 5 default_delay always_html granted) as (_ & _ & _ & _ & H).
  - lia.
  - apply H; [reflexivity|lia|].
    intros page. unfold fetch_search_page. rewrite sample_template_url.
    eexists _, _. split; [reflexivity|]. split; [discriminate|].
    split; [vm_compute; reflexivity|reflexivity].
Defined.

(** C4, as stated, fails on a delay that [time.sleep] refuses: with room
    left after the first page and a page to go the run pauses, and the
    pause raises.  It fails as well on a template from which no page
    address can be built. *)
Lemma scrape_cap_counterexample :
  0 ≤ 100
  ∧ scrape no_dates sample_now ten_per_page sample_template 100
      negative_delay always_html granted 2
    = Raise (ValueError "sleep length must be non-negative")
  ∧ ¬ (∃ jobs,
         scrape no_dates sample_now ten_per_page sample_template 100
           negative_delay always_html granted 2 = Ok jobs
         ∧ Z.of_nat (length jobs) ≤ 100)
  ∧ scrape no_dates sample_now ten_per_page
      "https://www.upwork.com/nx/search/jobs/?q={query}&page={page}" 100
      default_delay always_html granted 2
    = Raise (KeyError "query").
Proof.
  assert (H : scrape no_dates sample_now ten_per_page sample_template 100
                negative_delay always_html granted 2
              = Raise (ValueError "sleep length must be non-negative"))
    by (vm_compute; reflexivity).
  split; [lia|]. split; [exact H|]. split; [|vm_compute; reflexivity].
  intros (jobs & Hjobs & _). rewrite H in Hjobs. discriminate Hjobs.
Qed.

(** The run of the sample: five records, the first five of the first
    page. *)
Example scrape_five_of_ten :
  List.map title
    (match scrape no_dates sample_now ten_per_page sample_template 5
             default_delay always_html granted 3 with
     | Ok jobs => jobs
     | Raise _ => []
     end)
  = ["Job 0"; "Job 1"; "Job 2"; "Job 3"; "Job 4"].
Proof. vm_compute. reflexivity. Qed.

(** ** The exporter *)

Lemma filter_ext_elem_of {A} (P Q : A → Prop) `{!∀ x, Decision (P x)}
    `{!∀ x, Decision (Q x)} (l : list A) :
  (∀ x, x ∈ l → P x ↔ Q x) → filter P l = filter Q l.
Proof.
  induction l as [|a l IH]; intros Hext; [done|].
  rewrite !filter_cons. rewrite IH by (intros x Hx; apply Hext; by right).
  destruct (decide (P a)) as [Hp|Hp], (decide (Q a)) as [Hq|Hq]; try done.
  - by apply (Hext a) in Hp; [|left].
  - by apply (Hext a) in Hq; [|left].
Qed.

Lemma move_preferred_spec preferred ordered (fields : gset string) :
  NoDup preferred →
  move_preferred preferred ordered fields
  = (ordered ++ filter (λ f, f ∈ fields) preferred,
     fields ∖ list_to_set preferred).
Proof.
  intros Hnd. revert ordered fields.
  induction Hnd as [|field preferred Hnin Hnd IH]; intros ordered fields.
  { cbn. by rewrite app_nil_r, difference_empty_L. }
  cbn [move_preferred]. rewrite filter_cons.
  destruct (decide (field ∈ fields)) as [Hin|Hout].
  - rewrite IH. f_equal.
    + rewrite <- app_assoc. cbn. do 2 f_equal.
      apply filter_ext_elem_of. intros f Hf.
      rewrite elem_of_difference, elem_of_singleton.
      split; [by intros [? _]|]. intros ?. split; [done|]. by intros ->.
    + apply set_eq. intros f. rewrite list_to_set_cons.
      rewrite !elem_of_difference, elem_of_union, elem_of_singleton. tauto.
  - rewrite IH. f_equal. apply set_eq. intros f.
    rewrite list_to_set_cons.
    rewrite !elem_of_difference, elem_of_union, elem_of_singleton.
    split; [|tauto]. intros [Hf Hnot]. split; [done|].
    intros [->|?]; done.
Qed.

Lemma preferred_order_NoDup : NoDup preferred_order.
Proof. apply (bool_decide_unpack _). vm_compute. exact I. Qed.

Lemma collect_fieldnames_as_lists data :
  _collect_fieldnames data
  = filter (λ f, f ∈ fields_of data) preferred_order
    ++ sorted (fields_of data ∖ list_to_set preferred_order).
Proof.
  unfold _collect_fieldnames. fold (fields_of data).
  by rewrite (move_preferred_spec _ _ _ preferred_order_NoDup).
Qed.

Lemma elem_of_fields_of data f :
  f ∈ fields_of data ↔ ∃ item, item ∈ data ∧ f ∈ keys item.
Proof.
  unfold fields_of.
  assert (H : ∀ (acc : gset string),
            f ∈ foldl (λ fields item, fields ∪ list_to_set (keys item)) acc data
            ↔ f ∈ acc ∨ ∃ item, item ∈ data ∧ f ∈ keys item).
  { induction data as [|d data IH]; intros acc; cbn [foldl].
    - split; [by left|]. intros [?|(? & ?%elem_of_nil & _)]; done.
    - rewrite IH, elem_of_union, elem_of_list_to_set. split.
      + intros [[?|?]|(item & ? & ?)]; [by left| |].
        * right. exists d. split; [left|done].
        * right. exists item. split; [by right|done].
      + intros [?|(item & [->|?]%elem_of_cons & ?)];
          [by left; left|by left; right|].
        right. by exists item. }
  rewrite H. split; [|by right]. intros [?%elem_of_empty|?]; done.
Qed.


Lemma dataframe_columns_of_jobs job jobs :
  dataframe_columns (List.map flatten (List.map job_dict (job :: jobs)))
  = preferred_order.
Proof.
  unfold dataframe_columns. cbn [List.map foldl].
  change (first_seen [] (List.map fst (flatten (job_dict job))))
    with preferred_order.
  induction jobs as [|j jobs IH]; [done|]. cbn [List.map foldl].
  change (first_seen preferred_order (List.map fst (flatten (job_dict j))))
    with preferred_order.
  exact IH.
Qed.

(** X18.  For the records the scraper itself builds, the Excel columns are in
    the preferred order as well: they are written in that order. *)
Lemma excel_columns_of_jobs output_dir to_excel job jobs file_prefix :
  ∃ cells,
    _export_excel output_dir to_excel (List.map job_dict (job :: jobs))
      file_prefix
    = after (to_excel {| df_columns := preferred_order; df_rows := cells |}
               (PathJoin output_dir (file_prefix +:+ ".xlsx")))
        (PathJoin output_dir (file_prefix +:+ ".xlsx"),
         ExcelFile preferred_order cells).
Proof.
  eexists. unfold _export_excel, after, pd_DataFrame.
  rewrite dataframe_columns_of_jobs. reflexivity.
Qed.

(** C8, at an input on which the code departs from it.  A record whose
    keys are title, description, jobId in that order is exported to CSV
    with the columns in the preferred order, and to Excel with the columns
    in the order of the record. *)
Theorem excel_columns_keep_record_order (output_dir file_prefix : string)
    (os_write : Path → option string) (to_excel : DataFrame → Path → py unit) :
  (∃ rows,
     export output_dir os_write to_excel [foreign_record] "csv" file_prefix
     = after (write_file os_write (PathJoin output_dir (file_prefix +:+ ".csv")))
         (PathJoin output_dir (file_prefix +:+ ".csv"),
          CsvFile ["jobId"; "title"; "description"] rows))
  ∧ (∃ cells,
       export output_dir os_write to_excel [foreign_record] "excel" file_prefix
       = after (to_excel {| df_columns := ["title"; "description"; "jobId"];
                            df_rows := cells |}
                  (PathJoin output_dir (file_prefix +:+ ".xlsx")))
           (PathJoin output_dir (file_prefix +:+ ".xlsx"),
            ExcelFile ["title"; "description"; "jobId"] cells)).
Proof. split; eexists; vm_compute; reflexivity. Qed.

(** On a system where every file can be written both exports return. *)
Example excel_columns_sample :
  (∃ rows,
     export "data" writable excel_ready [foreign_record] "csv" "upwork_jobs"
     = Ok (PathJoin "data" "upwork_jobs.csv",
           CsvFile ["jobId"; "title"; "description"] rows))
  ∧ (∃ cells,
       export "data" writable excel_ready [foreign_record] "excel" "upwork_jobs"
       = Ok (PathJoin "data" "upwork_jobs.xlsx",
             ExcelFile ["title"; "description"; "jobId"] cells)).
Proof. split; eexists; vm_compute; reflexivity. Qed.






(** The format is compared without regard to case. *)
Example export_upper_case_format :
  export "data" writable excel_ready [foreign_record] "JSON" "upwork_jobs"
  = Ok (PathJoin "data" "upwork_jobs.json", JsonFile [foreign_record]).
Proof. vm_compute. reflexivity. Qed.

Example export_empty_list :
  export "data" writable excel_ready [] "json" "upwork_jobs"
  = Raise (ValueError "No data supplied for export.").
Proof. reflexivity. Qed.

Example export_unsupported_format :
  export "data" writable excel_ready [foreign_record] "yaml" "upwork_jobs"
  = Raise (ValueError "Unsupported export format: yaml").
Proof. vm_compute. reflexivity. Qed.

(** ** Integers read from text *)

Lemma digit_value_range c :
  Chr.is_digit c = true → 0 ≤ Chr.digit_value c ≤ 9.
Proof.
  unfold Chr.is_digit, Chr.digit_value.
  intros [H1%N.leb_le H2%N.leb_le]%andb_prop. lia.
Qed.

Lemma digits_value_nonneg acc s :
  Str.all Chr.is_digit s = true → 0 ≤ acc → 0 ≤ digits_value acc s.
Proof.
  revert acc. induction s as [|c s IH]; intros acc Hs Hacc; [done|].
  cbn in Hs |- *. apply andb_prop in Hs as [Hc Hs].
  apply IH; [done|]. pose proof (digit_value_range c Hc). lia.
Qed.

Lemma int_of_str_nonneg s n : int_of_str s = Ok n → 0 ≤ n.
Proof.
  unfold int_of_str.
  destruct (Str.truthy s && Str.all Chr.is_digit s) eqn:Hd; [|done].
  apply andb_prop in Hd as [_ Hd]. cbn [negb].
  destruct (_ <? _)%nat; [done|]. intros [= <-].
  by apply digits_value_nonneg.
Qed.

Lemma int_of_str_short s :
  Str.truthy s && Str.all Chr.is_digit s = true →
  (String.length s ≤ int_max_str_digits)%nat →
  int_of_str s = Ok (digits_value 0 s).
Proof.
  intros Hd Hlen. unfold int_of_str. rewrite Hd. cbn [negb].
  by destruct (Nat.ltb_spec int_max_str_digits (String.length s)); [lia|].
Qed.

(** ** [parse_created_at] *)

Lemma is_digit_not_space c : Chr.is_digit c = true → Chr.is_space c = false.
Proof.
  unfold Chr.is_digit, Chr.is_space.
  intros [H1%N.leb_le H2%N.leb_le]%andb_prop.
  repeat match goal with
         | |- context [(?a <=? ?b)%N] => destruct (N.leb_spec a b); try lia
         | |- context [(?a =? ?b)%N] => destruct (N.eqb_spec a b); try lia
         end; done.
Qed.

Lemma lower_digit c : Chr.is_digit c = true → Chr.lower c = c.
Proof.
  unfold Chr.is_digit, Chr.lower.
  intros [H1%N.leb_le H2%N.leb_le]%andb_prop.
  repeat match goal with
         | |- context [(?a <=? ?b)%N] => destruct (N.leb_spec a b); try lia
         | |- context [(?a =? ?b)%N] => destruct (N.eqb_spec a b); try lia
         end; done.
Qed.

Lemma digit_not_separator c :
  Chr.is_digit c = true → Str.mem " ,-" c = false.
Proof.
  intros Hc. cbn [Str.mem].
  destruct (Ascii.eqb_spec " " c) as [<-|]; [by vm_compute in Hc|].
  destruct (Ascii.eqb_spec "," c) as [<-|]; [by vm_compute in Hc|].
  destruct (Ascii.eqb_spec "-" c) as [<-|]; [by vm_compute in Hc|done].
Qed.

Lemma map_app f a b : Str.map f (a +:+ b) = Str.map f a +:+ Str.map f b.
Proof.
  induction a as [|c a IH]; [done|]. rewrite app_cons. cbn.
  by rewrite IH.
Qed.

Lemma lower_digits ds : Str.all Chr.is_digit ds = true → Str.lower ds = ds.
Proof.
  induction ds as [|c ds IH]; [done|]. cbn.
  intros [Hc Hds]%andb_prop. unfold Str.lower in IH.
  by rewrite lower_digit, IH.
Qed.

Lemma single_spaced_digits b ds rest :
  Str.truthy ds && Str.all Chr.is_digit ds = true →
  single_spaced b (ds +:+ rest) = single_spaced false rest.
Proof.
  intros [Hne Hds]%andb_prop. revert b Hne.
  induction ds as [|c ds IH]; intros b Hne; [done|].
  cbn in Hds. apply andb_prop in Hds as [Hc Hds].
  rewrite app_cons. cbn [single_spaced]. rewrite (is_digit_not_space c Hc).
  destruct ds as [|d ds]; [done|]. by apply IH.
Qed.

Lemma rstrip_app p a b :
  Str.rstrip p b ≠ "" → Str.rstrip p (a +:+ b) = a +:+ Str.rstrip p b.
Proof.
  intros Hb. induction a as [|c a IH]; [done|].
  rewrite !app_cons. cbn [Str.rstrip]. rewrite IH.
  destruct (a +:+ Str.rstrip p b) eqn:E; [|by rewrite andb_false_r].
  destruct a; [|done]. by destruct Hb.
Qed.

(** A greedy repetition over a run that ends the class takes the whole
    run when the rest of the pattern matches behind it. *)
Lemma plus_match_run {A} cls (k : string → string → option A) taken run c rest r :
  Str.truthy run && Str.all cls run = true →
  cls c = false →
  k (taken +:+ run) (String c rest) = Some r →
  Re.plus_match cls k taken (run +:+ String c rest) = Some r.
Proof.
  intros [Hne Hrun]%andb_prop Hc. revert taken Hne.
  induction run as [|d run IH]; intros taken Hne Hk; [done|].
  cbn in Hrun. apply andb_prop in Hrun as [Hd Hrun].
  rewrite app_cons. cbn [Re.plus_match]. rewrite Hd.
  destruct run as [|e run].
  - change ("" +:+ String c rest) with (String c rest).
    cbn [Re.plus_match]. by rewrite Hc.
  - rewrite IH; [done..|]. by rewrite app_assoc_str.
Qed.

Lemma match_here_plus cls p s :
  Re.match_here (Re.Plus cls :: p) s
  = Re.plus_match cls
      (λ taken rest, match Re.match_here p rest with
                     | Some texts => Some (taken :: texts)
                     | None => None
                     end) "" s.
Proof. done. Qed.

Lemma timedelta_relative unit value :
  unit ∈ relative_units →
  0 ≤ value →
  value * unit_microseconds unit / us_per_day ≤ 999999999 →
  timedelta (delta_kwargs unit value) = Ok (value * unit_microseconds unit).
Proof.
  intros Hunit Hvalue Hdays. unfold relative_units in Hunit.
  assert (Hus : ∃ kw,
            delta_kwargs unit value = [(kw, value)]
            ∧ kwarg [(kw, value)] "weeks" * us_per_week
              + kwarg [(kw, value)] "days" * us_per_day
              + kwarg [(kw, value)] "hours" * us_per_hour
              + kwarg [(kw, value)] "minutes" * us_per_minute
              = value * unit_microseconds unit).
  { repeat (apply elem_of_cons in Hunit as [->|Hunit]);
      [..|by apply elem_of_nil in Hunit];
      eexists; (split; [reflexivity|]);
      unfold kwarg, unit_microseconds; cbn; lia. }
  destruct Hus as (kw & -> & Hus). unfold timedelta. rewrite Hus.
  assert (0 ≤ value * unit_microseconds unit / us_per_day).
  { apply Z.div_pos; [|done]. apply Z.mul_nonneg_nonneg; [done|].
    unfold unit_microseconds.
    repeat match goal with |- context [if ?b then _ else _] => destruct b end;
      done. }
  rewrite Z.abs_eq by done.
  by destruct (Z.ltb_spec 999999999 (value * unit_microseconds unit / us_per_day));
    [lia|].
Qed.

(** X10.  The part of C2 the code does satisfy.  On "Posted N unit ago", with N
    of at most 4300 digits and the moment N units before [now] within the
    years [datetime] can hold, [parse_created_at] returns the ISO-8601
    form of that moment, in the time zone of [now]. *)
Lemma parse_created_at_relative
    (date_parser_parse : string → py datetime) (now : datetime) ds unit :
  Str.truthy ds && Str.all Chr.is_digit ds = true →
  (String.length ds ≤ int_max_str_digits)%nat →
  unit ∈ relative_units →
  in_range (ticks now - digits_value 0 ds * unit_microseconds unit) = true →
  digits_value 0 ds * unit_microseconds unit / us_per_day ≤ 999999999 →
  parse_created_at date_parser_parse now
    ("Posted " +:+ ds +:+ " " +:+ unit +:+ " ago")
  = Ok (isoformat
          (mk_datetime (ticks now - digits_value 0 ds * unit_microseconds unit)
                       (utcoffset now))).
Proof.
  intros Hds Hlen Hunit Hrange Hdays.
  pose proof Hds as [Hne Hall]%andb_prop.
  assert (Hu : Str.lower unit = unit
               ∧ single_spaced false (" " +:+ unit +:+ " ago") = true
               ∧ Str.rstrip (Str.mem " ,-") (" " +:+ unit +:+ " ago")
                 = " " +:+ unit +:+ " ago"
               ∧ Re.match_here (tail relative_re) (" " +:+ unit +:+ " ago")
                 = Some [" "; unit; " "; "ago"]).
  { unfold relative_units in Hunit.
    repeat (apply elem_of_cons in Hunit as [->|Hunit]);
      [..|by apply elem_of_nil in Hunit]; vm_compute; done. }
  destruct Hu as (Hlow & Hspaced & Hrstrip & Hmatch).
  unfold parse_created_at.
  (* the text is clean already *)
  rewrite (normalized_clean_text ("Posted " +:+ ds +:+ " " +:+ unit +:+ " ago")).
  2:{ change (single_spaced true (ds +:+ " " +:+ unit +:+ " ago") = true).
      by rewrite single_spaced_digits. }
  (* lower-cased *)
  replace (Str.lower ("Posted " +:+ ds +:+ " " +:+ unit +:+ " ago"))
    with ("posted " +:+ ds +:+ " " +:+ unit +:+ " ago").
  2:{ unfold Str.lower. rewrite !map_app.
      fold (Str.lower ds). fold (Str.lower unit).
      rewrite (lower_digits ds Hall), Hlow. reflexivity. }
  change (Str.is_empty ("posted " +:+ ds +:+ " " +:+ unit +:+ " ago")) with false.
  cbn iota.
  (* the leading "posted" goes *)
  replace (strip_posted ("posted " +:+ ds +:+ " " +:+ unit +:+ " ago"))
    with (ds +:+ " " +:+ unit +:+ " ago").
  2:{ change (strip_posted ("posted " +:+ ds +:+ " " +:+ unit +:+ " ago"))
        with (Str.rstrip (Str.mem " ,-")
                (Str.lstrip (Str.mem " ,-") (ds +:+ " " +:+ unit +:+ " ago"))).
      destruct ds as [|c ds]; [done|]. rewrite app_cons.
      cbn in Hall. apply andb_prop in Hall as [Hc _].
      cbn [Str.lstrip]. rewrite (digit_not_separator c Hc).
      rewrite <- app_cons, rstrip_app; rewrite Hrstrip; [done|].
      by destruct unit. }
  (* the relative pattern matches *)
  replace (Re.match_ relative_re (ds +:+ " " +:+ unit +:+ " ago"))
    with (Some [ds; " "; unit; " "; "ago"]).
  2:{ symmetry. unfold Re.match_, relative_re. rewrite match_here_plus.
      change (" " +:+ unit +:+ " ago") with (String " " (unit +:+ " ago")).
      apply plus_match_run; [done..|].
      change (String " " (unit +:+ " ago")) with (" " +:+ unit +:+ " ago").
      unfold relative_re in Hmatch. cbn [tail] in Hmatch.
      change ("" +:+ ds) with ds.
      by rewrite Hmatch. }
  cbn [Re.group nth].
  rewrite int_of_str_short by done. cbn [mbind py_bind bind].
  rewrite timedelta_relative;
    [|done|by apply digits_value_nonneg|done].
  cbn [mbind py_bind bind]. unfold Datetime.sub. by rewrite Hrange.
Qed.

(** "yesterday" gives the moment one day before [now]. *)
Lemma parse_created_at_yesterday
    (date_parser_parse : string → py datetime) (now : datetime) :
  in_range (ticks now - us_per_day) = true →
  parse_created_at date_parser_parse now "yesterday"
  = Ok (isoformat (mk_datetime (ticks now - us_per_day) (utcoffset now))).
Proof.
  intros Hrange.
  change (parse_created_at date_parser_parse now "yesterday")
    with (created ← Datetime.sub now us_per_day; Ok (isoformat created)).
  unfold Datetime.sub. by rewrite Hrange.
Qed.

Lemma sub_whitespace_blank b s :
  Str.all Chr.is_space s = true →
  Str.lstrip Chr.is_space (sub_whitespace b s) = "".
Proof.
  revert b. induction s as [|c s IH]; intros b; [done|]. cbn.
  intros [Hc Hs]%andb_prop. rewrite Hc.
  destruct b; [by apply IH|]. cbn. rewrite is_space_space. by apply IH.
Qed.

(** An empty text or one of whitespace only gives the empty text. *)
Lemma parse_created_at_blank
    (date_parser_parse : string → py datetime) (now : datetime) text :
  Str.all Chr.is_space text = true →
  parse_created_at date_parser_parse now text = Ok "".
Proof.
  intros Hblank. unfold parse_created_at, clean_text, Str.strip.
  by rewrite sub_whitespace_blank.
Qed.

(** X11.  A text that is neither a relative time nor "yesterday" and that
    the date parser refuses comes back cleaned, in its own case. *)
Lemma parse_created_at_unrecognized
    (date_parser_parse : string → py datetime) (now : datetime) text e :
  clean_text text ≠ "" →
  Re.match_ relative_re (strip_posted (Str.lower (clean_text text))) = None →
  strip_posted (Str.lower (clean_text text)) ≠ "yesterday" →
  date_parser_parse (strip_posted (Str.lower (clean_text text))) = Raise e →
  parse_created_at date_parser_parse now text = Ok (clean_text text).
Proof.
  intros Hne Hrel Hyes Hdate. unfold parse_created_at.
  destruct (clean_text text) as [|c t] eqn:E; [done|].
  cbn [Str.lower Str.map Str.is_empty]. cbn [Str.lower Str.map] in Hrel, Hyes, Hdate.
  rewrite Hrel. apply String.eqb_neq in Hyes. rewrite Hyes.
  by rewrite Hdate.
Qed.

(** C2, at inputs on which the code departs from it.  "Posted 600000 weeks
    ago" has the form of a relative time, and 600000 weeks before any
    moment [datetime] can hold lies before the year 1: the subtraction
    raises [OverflowError], outside the [try], and the call returns neither
    a timestamp nor the cleaned text. *)
Theorem parse_created_at_overflow
    (date_parser_parse : string → py datetime) (now : datetime) :
  in_range (ticks now) = true →
  parse_created_at date_parser_parse now "Posted 600000 weeks ago"
  = Raise OverflowError.
Proof.
  intros Hnow.
  change (parse_created_at date_parser_parse now "Posted 600000 weeks ago")
    with (created ← Datetime.sub now (600000 * us_per_week);
          Ok (isoformat created)).
  unfold Datetime.sub.
  replace (in_range (ticks now - 600000 * us_per_week)) with false; [done|].
  unfold in_range in *. apply andb_prop in Hnow as [_ Hlt].
  apply Z.ltb_lt in Hlt. symmetry. apply andb_false_iff. left.
  apply Z.leb_gt. unfold max_ticks, us_per_week, us_per_day, us_per_hour,
    us_per_minute, us_per_second in *. lia.
Qed.

Lemma parse_created_at_overflow_witness :
  parse_created_at no_dates sample_now "Posted 600000 weeks ago"
  = Raise OverflowError.
Proof. apply parse_created_at_overflow. vm_compute. reflexivity. Defined.

(** ** [parse_client_reviews] *)

Lemma first_reasonable_nonneg numbers : 0 ≤ first_reasonable numbers.
Proof.
  induction numbers as [|n numbers IH]; [done|]. cbn.
  destruct (Z.ltb_spec 0 n); cbn; [|done]. destruct (n <? 10000); [lia|done].
Qed.

(** Whenever it returns, [parse_client_reviews] returns a non-negative
    integer. *)
Lemma parse_client_reviews_nonneg text n :
  parse_client_reviews text = Ok n → 0 ≤ n.
Proof.
  unfold parse_client_reviews, mbind, py_bind, bind, try_except.
  destruct (Re.search _ _) as [m|].
  - destruct (int_of_str (Re.group m 0)) as [k|e] eqn:E.
    + intros [= <-]. by apply int_of_str_nonneg in E.
    + destruct e; try done.
      destruct (mapM _ _); [|done]. intros [= <-]. apply first_reasonable_nonneg.
  - destruct (mapM _ _); [|done]. intros [= <-]. apply first_reasonable_nonneg.
Qed.

Lemma length_app_str a b :
  String.length (a +:+ b) = (String.length a + String.length b)%nat.
Proof. induction a as [|c a IH]; [done|]. rewrite app_cons. cbn. by rewrite IH. Qed.

Lemma all_app p a b : Str.all p (a +:+ b) = Str.all p a && Str.all p b.
Proof.
  induction a as [|c a IH]; [done|]. rewrite app_cons. cbn.
  by rewrite IH, andb_assoc.
Qed.

Lemma length_sub_whitespace b s :
  (String.length (sub_whitespace b s) ≤ String.length s)%nat.
Proof.
  revert b. induction s as [|c s IH]; intros b; [done|]. cbn.
  destruct (Chr.is_space c); [destruct b|]; cbn;
    [specialize (IH true)|specialize (IH true)|specialize (IH false)]; lia.
Qed.

Lemma length_lstrip p s :
  (String.length (Str.lstrip p s) ≤ String.length s)%nat.
Proof.
  induction s as [|c s IH]; [done|]. cbn. destruct (p c); cbn; lia.
Qed.

Lemma length_rstrip p s :
  (String.length (Str.rstrip p s) ≤ String.length s)%nat.
Proof.
  induction s as [|c s IH]; [done|]. cbn.
  destruct (p c && Str.is_empty _); cbn; lia.
Qed.

Lemma length_clean_text s :
  (String.length (clean_text s) ≤ String.length s)%nat.
Proof.
  unfold clean_text, Str.strip.
  etrans; [apply length_rstrip|]. etrans; [apply length_lstrip|].
  apply length_sub_whitespace.
Qed.

Lemma length_map f s : String.length (Str.map f s) = String.length s.
Proof. induction s as [|c s IH]; [done|]. cbn. by rewrite IH. Qed.

(** A run of [\d+] read by [Re.findall_plus] or taken by [Re.plus_match]
    is a non-empty text of digits, no longer than the subject. *)
Lemma findall_plus_runs cls cur s :
  Str.all cls cur = true →
  Forall (λ run, Str.truthy run && Str.all cls run = true
                 ∧ (String.length run ≤ String.length cur + String.length s)%nat)
         (Re.findall_plus cls cur s).
Proof.
  revert cur. induction s as [|c s IH]; intros cur Hcur; cbn [Re.findall_plus].
  - destruct cur as [|a cur]; [constructor|].
    constructor; [|constructor]. split; [done|]. cbn. lia.
  - destruct (cls c) eqn:Hc.
    + eapply Forall_impl; [apply IH|].
      * rewrite all_app, Hcur. cbn. by rewrite Hc.
      * intros run [? Hlen]. split; [done|].
        rewrite length_app_str in Hlen. cbn in Hlen |- *. lia.
    + apply Forall_app. split.
      * destruct cur as [|a cur]; [constructor|].
        constructor; [|constructor]. split; [done|]. cbn. lia.
      * eapply Forall_impl; [by apply IH|].
        intros run [? Hlen]. split; [done|]. cbn in Hlen |- *. lia.
Qed.

Lemma plus_match_Some {A} cls (k : string → string → option A) taken s r :
  Re.plus_match cls k taken s = Some r →
  ∃ run rest,
    s = run +:+ rest ∧ Str.truthy run && Str.all cls run = true
    ∧ k (taken +:+ run) rest = Some r.
Proof.
  revert taken. induction s as [|c s IH]; intros taken; [done|].
  cbn [Re.plus_match]. destruct (cls c) eqn:Hc; [|done].
  destruct (Re.plus_match cls k (taken +:+ String c "") s) as [r'|] eqn:E.
  - intros [= ->]. destruct (IH _ E) as (run & rest & -> & Hrun & Hk).
    exists (String c run), rest. split; [done|]. split.
    + apply andb_prop in Hrun as [_ Hrun]. cbn. by rewrite Hc, Hrun.
    + by rewrite app_assoc_str in Hk.
  - intros Hk. exists (String c ""), s. split; [done|]. split; [|done].
    cbn. by rewrite Hc.
Qed.

Lemma search_reviews_group s m :
  Re.search reviews_re s = Some m →
  Str.truthy (Re.group m 0) && Str.all Chr.is_digit (Re.group m 0) = true
  ∧ (String.length (Re.group m 0) ≤ String.length s)%nat.
Proof.
  induction s as [|c s IH]; cbn [Re.search].
  - done.
  - destruct (Re.match_here reviews_re (String c s)) as [texts|] eqn:E.
    + intros [= <-]. unfold reviews_re in E. cbn [Re.match_here] in E.
      apply plus_match_Some in E as (run & rest & Hs & Hrun & Hk).
      destruct (Re.plus_match _ _ _ rest) as [texts'|]; [|done].
      injection Hk as <-. cbn [Re.group nth]. split; [done|].
      apply (f_equal String.length) in Hs. rewrite length_app_str in Hs.
      change ("" +:+ run) with run. rewrite Hs. lia.
    + intros Hm. destruct (IH Hm) as [? ?]. split; [done|]. cbn. lia.
Qed.

Lemma mapM_returns {A B} (f : A → py B) l :
  Forall (λ a, returns (f a)) l → returns (mapM f l).
Proof.
  induction 1 as [|a l [b Hb] _ [bs IH]]; [by eexists|].
  cbn. rewrite Hb. cbn. rewrite IH. by eexists.
Qed.

(** X14.  On a text of at most 4300 characters [parse_client_reviews]
    returns, and what it returns is not negative: only longer texts can
    hold a number that [int] refuses. *)
Lemma parse_client_reviews_returns text :
  (String.length text ≤ int_max_str_digits)%nat →
  ∃ n, parse_client_reviews text = Ok n ∧ 0 ≤ n.
Proof.
  intros Hlen.
  assert (Hret : returns (parse_client_reviews text)).
  { unfold parse_client_reviews.
    set (text_clean := Str.lower (clean_text text)).
    assert (Hclean : (String.length text_clean ≤ int_max_str_digits)%nat).
    { unfold text_clean, Str.lower. rewrite length_map.
      etrans; [apply length_clean_text|done]. }
    assert (Hnumbers : returns (mapM int_of_str
              (List.filter isdigit (Re.findall_plus Chr.is_digit "" text_clean)))).
    { apply mapM_returns, Forall_forall. intros run Hrun.
      apply list_elem_of_In, List.filter_In in Hrun as [Hrun _].
      pose proof (findall_plus_runs Chr.is_digit "" text_clean eq_refl) as Hall.
      rewrite Forall_forall in Hall.
      destruct (Hall run) as [Hd Hl]; [by apply list_elem_of_In|].
      rewrite int_of_str_short; [by eexists|done|cbn in Hl; lia]. }
    destruct (Re.search reviews_re text_clean) as [m|] eqn:E.
    - destruct (search_reviews_group _ _ E) as [Hd Hl].
      rewrite int_of_str_short; [by eexists|done|lia].
    - cbn. destruct Hnumbers as [numbers ->]. by eexists. }
  destruct Hret as [n Hn]. exists n. split; [done|].
  by apply parse_client_reviews_nonneg in Hn.
Qed.

Lemma plus_match_space_digits {A} (k : string → string → option A) taken s :
  Str.all Chr.is_digit s = true → Re.plus_match Chr.is_space k taken s = None.
Proof.
  destruct s as [|c s]; [done|]. cbn [Str.all Re.plus_match].
  intros [Hc _]%andb_prop. by rewrite (is_digit_not_space c Hc).
Qed.

Lemma plus_match_digits_only {A} (k : string → string → option A) taken s :
  (∀ t r, Str.all Chr.is_digit r = true → k t r = None) →
  Str.all Chr.is_digit s = true →
  Re.plus_match Chr.is_digit k taken s = None.
Proof.
  intros Hk. revert taken. induction s as [|c s IH]; intros taken; [done|].
  cbn [Str.all Re.plus_match]. intros [Hc Hs]%andb_prop.
  rewrite Hc, IH by done. by apply Hk.
Qed.

Lemma search_reviews_digits s :
  Str.all Chr.is_digit s = true → Re.search reviews_re s = None.
Proof.
  assert (Hhere : ∀ t, Str.all Chr.is_digit t = true →
            Re.match_here reviews_re t = None).
  { intros t Ht. unfold reviews_re. rewrite match_here_plus.
    apply plus_match_digits_only; [|done].
    intros taken r Hr. by rewrite match_here_plus, plus_match_space_digits. }
  induction s as [|c s IH]; intros Hs; cbn [Re.search].
  - by rewrite Hhere.
  - rewrite Hhere by done. cbn in Hs. apply andb_prop in Hs as [_ Hs]. by apply IH.
Qed.

Lemma findall_plus_all cls cur s :
  Str.all cls s = true →
  Re.findall_plus cls cur s
  = if Str.is_empty (cur +:+ s) then [] else [cur +:+ s].
Proof.
  revert cur. induction s as [|c s IH]; intros cur Hs.
  - cbn [Re.findall_plus]. by rewrite app_empty_r.
  - cbn [Str.all] in Hs. apply andb_prop in Hs as [Hc Hs].
    cbn [Re.findall_plus]. rewrite Hc, IH by done.
    by rewrite app_assoc_str.
Qed.

(** On a text that is one number, the number is converted and returned
    when it is reasonable. *)
Lemma parse_client_reviews_digits s :
  Str.truthy s && Str.all Chr.is_digit s = true →
  parse_client_reviews s = n ← int_of_str s; Ok (first_reasonable [n]).
Proof.
  intros Hs. pose proof Hs as [Hne Hall]%andb_prop.
  unfold parse_client_reviews.
  rewrite (normalized_clean_text s).
  2:{ destruct s as [|c t]; [done|]. unfold normalized.
      rewrite <- (app_empty_r (String c t)). by rewrite single_spaced_digits. }
  rewrite (lower_digits s Hall), search_reviews_digits by done.
  cbn [mbind py_bind bind]. rewrite findall_plus_all by done.
  change ("" +:+ s) with s.
  replace (Str.is_empty s) with false by (by destruct s).
  cbn [List.filter].
  replace (isdigit s) with true.
  2:{ symmetry. unfold isdigit. rewrite Hne. cbn [andb].
      clear -Hall. induction s as [|a s IH]; [done|].
      cbn in Hall |- *. apply andb_prop in Hall as [Ha Hall].
      unfold chr_isdigit at 1. rewrite Ha. cbn [orb andb]. by apply IH. }
  cbn [mapM]. by destruct (int_of_str s).
Qed.

(** C3, at an input on which the code departs from it.  On a text of 4301
    digits the pattern with "reviews" finds nothing and the fallback
    converts the run of digits, which is longer than the interpreter
    converts: [ValueError] is raised, the fallback has no handler for
    it. *)
Theorem parse_client_reviews_long_number :
  parse_client_reviews (sevens 4301)
  = Raise (ValueError "Exceeds the limit (4300 digits) for integer string conversion").
Proof.
  rewrite parse_client_reviews_digits by (vm_compute; reflexivity).
  assert (Hint : int_of_str (sevens 4301)
                 = Raise (ValueError "Exceeds the limit (4300 digits) for integer string conversion"))
    by (vm_compute; reflexivity).
  by rewrite Hint.
Qed.

(** With the preferred pattern present the handler catches the error of
    the first conversion, and the fallback raises it again. *)
Example parse_client_reviews_long_review_count :
  parse_client_reviews (sevens 4301 +:+ " reviews")
  = Raise (ValueError "Exceeds the limit (4300 digits) for integer string conversion").
Proof. vm_compute. reflexivity. Qed.

Example parse_client_reviews_examples :
  parse_client_reviews "48 reviews, $15,000+ spent" = Ok 48
  ∧ parse_client_reviews "" = Ok 0
  ∧ parse_client_reviews "12000 spent" = Ok 0
  ∧ parse_client_reviews "12000 spent, 37 hires" = Ok 37.
Proof. vm_compute. repeat split; reflexivity. Qed.

Example parse_created_at_examples :
  parse_created_at no_dates sample_now "Posted 3 hours ago"
  = Ok "2026-11-03T09:00:00+00:00"
  ∧ parse_created_at no_dates sample_now "yesterday"
    = Ok "2026-11-02T12:00:00+00:00"
  ∧ parse_created_at no_dates sample_now "" = Ok ""
  ∧ parse_created_at no_dates sample_now "not a date" = Ok "not a date".
Proof. vm_compute. repeat split; reflexivity. Qed.

(* ===================================================================== *)
(** * Further properties *)
(* ===================================================================== *)

(** ** The orchestrator *)

Lemma take_take_app {A} (n : nat) (l r : list A) :
  take n (take n l ++ r) = take n (l ++ r).
Proof.
  revert l. induction n as [|n IH]; intros l; [done|].
  destruct l as [|x l]; [done|]. cbn. by rewrite IH.
Qed.

Section ScrapeMore.

Variable date_parser_parse : string → py Datetime.datetime.
Variable now : Datetime.datetime.
Variable BeautifulSoup : string → Soup.
Variable search_url_template : string.
Variable max_items : Z.
Variable delay_seconds : float.
Variable http_get : string → option string.
Variable os_sleep : float → option string.

Local Abbreviation loop' :=
  (scrape_loop date_parser_parse now BeautifulSoup search_url_template
     max_items delay_seconds http_get os_sleep).
Local Abbreviation records :=
  (page_records date_parser_parse now BeautifulSoup search_url_template http_get).

(** One run of the loop: the pages it fetches are the first of those it
    was given, and the jobs it ends with are the first [max_items] of the
    jobs it started with followed by the records of the pages fetched. *)
Lemma scrape_loop_prefix max_pages pages jobs log jobs' log' :
  Z.of_nat (length jobs) ≤ max_items →
  loop' max_pages pages jobs log = Ok (jobs', log') →
  ∃ events,
    log' = log ++ events
    ∧ fetched_pages events `prefix_of` pages
    ∧ jobs' = take (Z.to_nat max_items)
                (jobs ++ concat (records <$> fetched_pages events)).
Proof.
  revert jobs log. induction pages as [|page pages IH]; intros jobs log Hle.
  { intros [= <- <-]. exists []. rewrite !app_nil_r.
    split; [done|]. split; [done|]. rewrite take_ge; [done|lia]. }
  cbn [scrape_loop].
  destruct (Z.leb_spec max_items (Z.of_nat (length jobs))) as [Hcap|Hlt].
  { intros [= <- <-]. exists []. rewrite !app_nil_r.
    split; [done|]. split; [apply prefix_nil|]. rewrite take_ge; [done|lia]. }
  destruct (fetch_search_page search_url_template http_get page) as [html|e] eqn:Hf;
    [|done].
  cbn [mbind py_bind bind].
  destruct (Str.is_empty html) eqn:Hempty.
  { intros [= <- <-]. exists [Fetched page]. split; [done|].
    assert (Hrec : records page = []).
    { unfold page_records. rewrite Hf. by destruct html. }
    change (fetched_pages [Fetched page]) with [page]. split.
    - by apply prefix_cons, prefix_nil.
    - change (concat (records <$> [page])) with (records page ++ []).
      rewrite Hrec. cbn [app].
      rewrite app_nil_r, take_ge; [done|lia]. }
  destruct (parse_jobs_from_html_returns date_parser_parse now BeautifulSoup html)
    as (page_jobs & Hparse & _).
  rewrite Hparse. cbn [mbind py_bind bind]. intros Hloop.
  assert (Hrec : records page = page_jobs).
  { unfold page_records. by rewrite Hf, Hparse. }
  assert (Hsleeps : ∃ pause,
            fetched_pages pause = []
            ∧ loop' max_pages pages (append_jobs max_items jobs page_jobs)
                ((log ++ [Fetched page]) ++ pause) = Ok (jobs', log')).
  { destruct (_ && _).
    - destruct (time_sleep os_sleep delay_seconds); [|done]. by exists [Slept].
    - exists []. by rewrite app_nil_r. }
  destruct Hsleeps as (pause & Hpause & Hloop').
  apply IH in Hloop' as (events & -> & Hpre & ->).
  2:{ by apply append_jobs_length. }
  exists ([Fetched page] ++ pause ++ events).
  split; [by rewrite <- !app_assoc|].
  assert (Hfetched : fetched_pages ([Fetched page] ++ pause ++ events)
                     = page :: fetched_pages events).
  { unfold fetched_pages in *. rewrite !omap_app, Hpause. done. }
  rewrite Hfetched. split; [by apply prefix_cons|].
  change (concat (records <$> page :: fetched_pages events))
    with (records page ++ concat (records <$> fetched_pages events)).
  rewrite Hrec.
  rewrite append_jobs_take by done.
  replace (jobs ++ take (Z.to_nat (max_items - Z.of_nat (length jobs))) page_jobs)
    with (take (Z.to_nat max_items) (jobs ++ page_jobs)).
  2:{ rewrite take_app. rewrite take_ge by lia. do 2 f_equal. lia. }
  by rewrite take_take_app, <- app_assoc.
Qed.

End ScrapeMore.

Lemma page_records_identified
    (date_parser_parse : string → py Datetime.datetime)
    (now : Datetime.datetime) (BeautifulSoup : string → Soup)
    (search_url_template : string) (http_get : string → option string) page :
  Forall identified
    (page_records date_parser_parse now BeautifulSoup search_url_template
       http_get page).
Proof.
  unfold page_records.
  destruct (fetch_search_page _ _ _) as [html|]; [|constructor].
  destruct (parse_jobs_from_html_returns date_parser_parse now BeautifulSoup html)
    as (jobs & -> & Hall).
  exact Hall.
Qed.

(** X1.  When every page address can be built, [time.sleep] accepts the
    delay and the cap is not negative, [scrape] returns the first
    [max_items] of the records of the pages it fetched, in the order of the
    pages and of the cards; the pages fetched are pages 1, 2, ... without a
    gap, at most [max_pages] of them. *)
Theorem scrape_returns_first_records
    (date_parser_parse : string → py Datetime.datetime)
    (now : Datetime.datetime) (BeautifulSoup : string → Soup)
    (search_url_template : string) (max_items : Z) (delay_seconds : float)
    (http_get : string → option string) (os_sleep : float → option string)
    (max_pages : Z) :
  0 ≤ max_items →
  (∀ page, returns (_build_url search_url_template page)) →
  time_sleep os_sleep delay_seconds = Ok tt →
  ∃ jobs log,
    scrape_run date_parser_parse now BeautifulSoup search_url_template
      max_items delay_seconds http_get os_sleep max_pages = Ok (jobs, log)
    ∧ fetched_pages log `prefix_of` seqZ 1 max_pages
    ∧ jobs = take (Z.to_nat max_items)
               (concat (page_records date_parser_parse now BeautifulSoup
                          search_url_template http_get
                        <$> fetched_pages log)).
Proof.
  intros Hcap Hurl Hsleep. unfold scrape_run.
  destruct (scrape_loop_cap date_parser_parse now BeautifulSoup
              search_url_template max_items delay_seconds http_get os_sleep max_pages
              (seqZ 1 max_pages) [] [] Hurl Hsleep) as (jobs & log & Hrun & _).
  { cbn. lia. }
  exists jobs, log. split; [done|].
  apply scrape_loop_prefix in Hrun as (events & -> & Hpre & ->); [|cbn; lia].
  done.
Qed.

Lemma scrape_returns_first_records_witness :
  ∃ jobs log,
    scrape_run no_dates sample_now ten_per_page sample_template 12
      default_delay always_html granted 3
    = Ok (jobs, log)
    ∧ fetched_pages log `prefix_of` seqZ 1 3
    ∧ jobs = take 12 (concat (page_records no_dates sample_now ten_per_page
                                sample_template always_html
                              <$> fetched_pages log)).
Proof.
  apply (scrape_returns_first_records no_dates sample_now ten_per_page
           sample_template 12 default_delay always_html granted 3).
  - lia.
  - intros page. rewrite sample_template_url. by eexists.
  - reflexivity.
Defined.

(** X2.  With a cap of zero or less [scrape] returns no record and fetches
    no page, whatever the template and the network. *)
Theorem scrape_without_capacity
    (date_parser_parse : string → py Datetime.datetime)
    (now : Datetime.datetime) (BeautifulSoup : string → Soup)
    (search_url_template : string) (max_items : Z) (delay_seconds : float)
    (http_get : string → option string) (os_sleep : float → option string)
    (max_pages : Z) :
  max_items ≤ 0 →
  scrape_run date_parser_parse now BeautifulSoup search_url_template
    max_items delay_seconds http_get os_sleep max_pages = Ok ([], [])
  ∧ scrape date_parser_parse now BeautifulSoup search_url_template
      max_items delay_seconds http_get os_sleep max_pages = Ok [].
Proof.
  intros Hcap. unfold scrape, scrape_run.
  rewrite scrape_loop_cap_reached by (cbn; lia). done.
Qed.

Lemma scrape_without_capacity_witness :
  scrape no_dates sample_now ten_per_page sample_template (-1)
    default_delay always_html granted 3
  = Ok [].
Proof.
  apply (scrape_without_capacity no_dates sample_now ten_per_page
           sample_template (-1) default_delay always_html granted 3). lia.
Defined.

(** X3.  Every record [scrape] returns satisfies the emptiness invariant:
    its job id, title or description is not empty. *)
Theorem scrape_records_identified
    (date_parser_parse : string → py Datetime.datetime)
    (now : Datetime.datetime) (BeautifulSoup : string → Soup)
    (search_url_template : string) (max_items : Z) (delay_seconds : float)
    (http_get : string → option string) (os_sleep : float → option string)
    (max_pages : Z) jobs :
  scrape date_parser_parse now BeautifulSoup search_url_template
    max_items delay_seconds http_get os_sleep max_pages = Ok jobs →
  Forall identified jobs.
Proof.
  unfold scrape, scrape_run, mbind, py_bind, bind.
  destruct (scrape_loop _ _ _ _ _ _ _ _ _ _ _ _) as [[jobs' log]|] eqn:Hrun; [|done].
  intros [= <-]. cbn [fst].
  destruct (Z.le_gt_cases 0 max_items) as [Hcap|Hneg].
  - apply scrape_loop_prefix in Hrun as (events & _ & _ & ->); [|cbn; lia].
    apply Forall_take, Forall_concat, Forall_fmap, Forall_forall.
    intros page _. apply page_records_identified.
  - rewrite scrape_loop_cap_reached in Hrun by (cbn; lia).
    injection Hrun as <- _. constructor.
Qed.

Lemma scrape_records_identified_witness :
  ∃ jobs,
    scrape no_dates sample_now ten_per_page sample_template 5
      default_delay always_html granted 3
    = Ok jobs
    ∧ Forall identified jobs.
Proof.
  eexists. split; [vm_compute; reflexivity|].
  apply (scrape_records_identified no_dates sample_now ten_per_page
           sample_template 5 default_delay always_html granted 3).
  vm_compute. reflexivity.
Defined.

(** ** The shape of a record *)

Lemma text_of_normalized el : normalized (text_of el) = true.
Proof. destruct el; [apply clean_text_normalized|done]. Qed.

Lemma parse_job_type_range text :
  parse_job_type text = "Hourly" ∨ parse_job_type text = "Fixed"
  ∨ parse_job_type text = "".
Proof.
  unfold parse_job_type. destruct (Str.contains "hourly" _); [by left|].
  destruct (_ || _); [by right; left|by right; right].
Qed.

Lemma parse_skills_list_NoDup raw :
  NoDup (Str.lower <$> parse_skills_list raw)
  ∧ Forall (λ skill, normalized skill = true ∧ skill ≠ "") (parse_skills_list raw).
Proof.
  unfold parse_skills_list.
  rewrite (skills_loop_first_occurrences raw [] ∅ []).
  2:{ intros k. split; [by intros ?%elem_of_empty|by intros ?%elem_of_nil]. }
  cbn [app]. split; [apply first_occurrences_NoDup|].
  apply Forall_forall. intros skill Hskill.
  eapply elem_of_sublist in Hskill; [|apply first_occurrences_sublist].
  apply list_elem_of_In, List.filter_In in Hskill as [Hin Hne].
  apply List.in_map_iff in Hin as (r & <- & _).
  split; [apply clean_text_normalized|]. by destruct (clean_text r).
Qed.

(** X5.  A record the extractor returns is in normal form: its title,
    description, duration, budget, client location, client spending and
    category are cleaned texts (words separated by single spaces), its job
    type is Hourly, Fixed or empty, its review count is not negative, and
    its skills are cleaned, non-empty and pairwise different up to case. *)
Theorem record_fields_normal
    (date_parser_parse : string → py Datetime.datetime)
    (now : Datetime.datetime) (card : Card) (job : Job) :
  _parse_single_job date_parser_parse now card = Ok (Some job) →
  normalized (title job) = true
  ∧ normalized (description job) = true
  ∧ normalized (duration job) = true
  ∧ normalized (budget job) = true
  ∧ normalized (clientLocation job) = true
  ∧ normalized (clientSpent job) = true
  ∧ normalized (category job) = true
  ∧ (jobType job = "Hourly" ∨ jobType job = "Fixed" ∨ jobType job = "")
  ∧ 0 ≤ clientReviews job
  ∧ NoDup (Str.lower <$> skills job)
  ∧ Forall (λ skill, normalized skill = true ∧ skill ≠ "") (skills job).
Proof.
  unfold _parse_single_job, mbind, py_bind, bind. intros H. py_inv H.
  match type of H with (if ?b then _ else _) = _ => destruct b end;
    [discriminate H|].
  injection H as <-. cbn.
  repeat split;
    try apply text_of_normalized;
    try apply clean_text_normalized;
    try apply parse_job_type_range;
    try (by eapply parse_client_reviews_nonneg);
    apply parse_skills_list_NoDup.
Qed.

Lemma record_fields_normal_witness :
  ∃ job,
    _parse_single_job no_dates sample_now (title_only_card " Python   developer ")
    = Ok (Some job)
    ∧ normalized (title job) = true.
Proof.
  eexists. split; [vm_compute; reflexivity|].
  apply (record_fields_normal no_dates sample_now
           (title_only_card " Python   developer ")).
  vm_compute. reflexivity.
Defined.

(** ** The cascade of card selectors *)

(** X6.  The page parser tries the card selectors in their order and takes
    the result of the first that finds a card: the selectors it runs are
    the first ones of the list, all but the last of them found nothing,
    the cards are those of the last one, and it gives up with no cards only
    after all four found nothing. *)
Theorem select_job_cards_first_match (soup : Soup) :
  ∃ n,
    (n < 4)%nat
    ∧ fst (select_job_cards soup) = take (S n) card_selectors
    ∧ Forall (λ sel, soup_select soup sel = []) (take n card_selectors)
    ∧ (∀ sel, card_selectors !! n = Some sel →
         snd (select_job_cards soup) = soup_select soup sel)
    ∧ (snd (select_job_cards soup) = [] → n = 3%nat).
Proof.
  unfold select_job_cards, card_selectors.
  destruct (soup_select soup Sel.air_card) as [|c1 l1] eqn:H1.
  - destruct (soup_select soup Sel.job_tile) as [|c2 l2] eqn:H2.
    + destruct (soup_select soup Sel.section) as [|c3 l3] eqn:H3.
      * exists 3%nat. cbn. split; [lia|]. split; [done|].
        split; [by repeat constructor|]. split; [by intros sel [= <-]|done].
      * exists 2%nat. cbn. split; [lia|]. split; [done|].
        split; [by repeat constructor|]. split; [by intros sel [= <-]|done].
    + exists 1%nat. cbn. split; [lia|]. split; [done|].
      split; [by repeat constructor|]. split; [by intros sel [= <-]|done].
  - exists 0%nat. cbn. split; [lia|]. split; [done|].
    split; [constructor|]. split; [by intros sel [= <-]|done].
Qed.

(** ** Job ids taken from links *)

Lemma split_nonempty sep s : Str.split sep s ≠ [].
Proof.
  destruct s as [|c s]; [done|]. cbn.
  destruct (Ascii.eqb c sep); [done|]. by destruct (Str.split sep s).
Qed.

Lemma split_pieces_free sep s : Forall (λ piece, free_of sep piece = true) (Str.split sep s).
Proof.
  induction s as [|c s IH]; [by repeat constructor|]. cbn [Str.split].
  destruct (Ascii.eqb c sep) eqn:Hc; [by constructor|].
  destruct (Str.split sep s) as [|piece pieces].
  - constructor; [|constructor]. unfold free_of. cbn. by rewrite Hc.
  - inversion IH as [|? ? Hp Hps]; subst. constructor; [|done].
    unfold free_of in *. cbn. by rewrite Hc, Hp.
Qed.

Lemma hd_split_app sep a b :
  free_of sep a = true →
  hd "" (Str.split sep (a +:+ b)) = a +:+ hd "" (Str.split sep b).
Proof.
  induction a as [|c a IH]; [done|]. unfold free_of. cbn [Str.all].
  intros [Hc Ha]%andb_prop. apply negb_true_iff in Hc.
  rewrite !app_cons. cbn [Str.split]. rewrite Hc.
  pose proof (split_nonempty sep (a +:+ b)) as Hne.
  destruct (Str.split sep (a +:+ b)) as [|piece pieces] eqn:E; [done|].
  cbn [hd] in *. by rewrite <- IH.
Qed.

Lemma hd_split_sep sep b : hd "" (Str.split sep (String sep b)) = "".
Proof. cbn [Str.split]. by rewrite Ascii.eqb_refl. Qed.

Lemma hd_split_free p sep s :
  Str.all p s = true → Str.all p (hd "" (Str.split sep s)) = true.
Proof.
  induction s as [|c s IH]; [done|]. cbn [Str.all Str.split].
  intros [Hc Hs]%andb_prop.
  destruct (Ascii.eqb c sep); [done|].
  pose proof (split_nonempty sep s) as Hne.
  destruct (Str.split sep s) as [|piece pieces]; [done|].
  cbn [hd] in *. cbn. by rewrite Hc, IH.
Qed.

(** [s.split(c, 1)[0]] is [s.split(c)[0]]. *)
Lemma hd_split_once c s :
  hd "" (split_once (String c "") s) = hd "" (Str.split c s).
Proof.
  unfold split_once. induction s as [|a s IH]; [done|].
  cbn [Str.partition Str.strip_prefix Str.split].
  rewrite (Ascii.eqb_sym c a).
  destruct (Ascii.eqb a c) eqn:Ha; [done|].
  pose proof (split_nonempty c s) as Hne.
  destruct (Str.partition (String c "") s) as [[before after]|];
    destruct (Str.split c s) as [|piece pieces]; try done;
    cbn [hd] in *; by rewrite IH.
Qed.

Lemma last_split_once_prefix c prefix rest :
  free_of c prefix = true →
  List.last (split_once (String c "") (prefix +:+ String c rest)) "" = rest
  ∧ Str.contains (String c "") (prefix +:+ String c rest) = true.
Proof.
  intros Hfree.
  assert (Hpart : Str.partition (String c "") (prefix +:+ String c rest)
                  = Some (prefix, rest)).
  { induction prefix as [|a prefix IH].
    - change ("" +:+ String c rest) with (String c rest).
      cbn [Str.partition Str.strip_prefix]. by rewrite Ascii.eqb_refl.
    - unfold free_of in Hfree. cbn [Str.all] in Hfree.
      apply andb_prop in Hfree as [Ha Hfree]. apply negb_true_iff in Ha.
      rewrite app_cons. cbn [Str.partition Str.strip_prefix].
      rewrite (Ascii.eqb_sym c a), Ha. by rewrite IH. }
  unfold split_once, Str.contains. by rewrite Hpart.
Qed.

(** X7.  The job id read off a link holds no slash and no question
    mark. *)
Theorem job_id_from_href_clean (href : string) :
  free_of "/" (job_id_from_href href) = true
  ∧ free_of "?" (job_id_from_href href) = true.
Proof.
  unfold job_id_from_href.
  assert (Hq : ∀ s, free_of "?" (hd "" (Str.split "?" s)) = true).
  { intros s. pose proof (split_pieces_free "?" s) as Hall.
    pose proof (split_nonempty "?" s) as Hne.
    destruct (Str.split "?" s); [done|]. by inversion Hall. }
  assert (Hs : ∀ s, free_of "/" (hd "" (Str.split "/" s)) = true).
  { intros s. pose proof (split_pieces_free "/" s) as Hall.
    pose proof (split_nonempty "/" s) as Hne.
    destruct (Str.split "/" s); [done|]. by inversion Hall. }
  destruct (Str.contains "~" href).
  - split; [|apply Hq]. apply hd_split_free.
    rewrite (hd_split_once "/"). apply Hs.
  - split; [|apply Hq]. apply hd_split_free.
    pose proof (split_pieces_free "/" (Str.rstrip (Str.mem "/") href)) as Hall.
    pose proof (split_nonempty "/" (Str.rstrip (Str.mem "/") href)) as Hne.
    rewrite Forall_forall in Hall. apply Hall.
    destruct (List.exists_last Hne) as (front & piece & ->).
    rewrite List.last_last. apply elem_of_app. right. left.
Qed.

(** X8.  From a link whose address holds a tilde for the first time just
    before the id, the id is recovered: the text between that tilde and
    the next slash or question mark, or the end of the address. *)
Theorem job_id_from_href_tilde (prefix id tail : string) :
  free_of "~" prefix = true →
  free_of "/" id = true →
  free_of "?" id = true →
  (tail = "" ∨ ∃ c rest, tail = String c rest ∧ (c = "/"%char ∨ c = "?"%char)) →
  job_id_from_href (prefix +:+ "~" +:+ id +:+ tail) = id.
Proof.
  intros Hprefix Hslash Hquestion Htail. unfold job_id_from_href.
  change (prefix +:+ "~" +:+ id +:+ tail)
    with (prefix +:+ String "~" (id +:+ tail)).
  destruct (last_split_once_prefix "~" prefix (id +:+ tail) Hprefix) as [-> ->].
  rewrite (hd_split_once "/"), (hd_split_app "/" id tail Hslash).
  destruct Htail as [->|(c & rest & -> & [->| ->])].
  - cbn [Str.split hd]. rewrite app_empty_r.
    rewrite <- (app_empty_r id) at 1. rewrite (hd_split_app "?" id "" Hquestion).
    cbn. by rewrite app_empty_r.
  - rewrite hd_split_sep, app_empty_r.
    rewrite <- (app_empty_r id) at 1. rewrite (hd_split_app "?" id "" Hquestion).
    cbn. by rewrite app_empty_r.
  - rewrite (hd_split_app "?" id _ Hquestion).
    assert (Hhd : ∃ u, hd "" (Str.split "/" (String "?" rest)) = String "?" u).
    { cbn [Str.split]. change (Ascii.eqb "?" "/") with false. cbn iota.
      pose proof (split_nonempty "/" rest) as Hne.
      destruct (Str.split "/" rest); [done|]. by eexists. }
    destruct Hhd as [u ->]. rewrite hd_split_sep. by rewrite app_empty_r.
Qed.

Lemma job_id_from_href_tilde_witness :
  job_id_from_href
    "https://www.upwork.com/jobs/Build-a-scraper_~01a2b3c4d5e6f7/?source=rss"
  = "01a2b3c4d5e6f7".
Proof.
  apply (job_id_from_href_tilde
           "https://www.upwork.com/jobs/Build-a-scraper_" "01a2b3c4d5e6f7"
           "/?source=rss"); [reflexivity..|].
  right. eexists _, _. split; [reflexivity|]. by left.
Defined.

(** ** Case and whitespace *)

Lemma lower_lower c : Chr.lower (Chr.lower c) = Chr.lower c.
Proof. destruct c as [[] [] [] [] [] [] [] []]; reflexivity. Qed.

Lemma is_space_lower c : Chr.is_space (Chr.lower c) = Chr.is_space c.
Proof. destruct c as [[] [] [] [] [] [] [] []]; reflexivity. Qed.

Lemma lower_idempotent s : Str.lower (Str.lower s) = Str.lower s.
Proof.
  unfold Str.lower. induction s as [|c s IH]; [done|].
  cbn [Str.map]. by rewrite lower_lower, IH.
Qed.

Lemma sub_whitespace_lower b s :
  sub_whitespace b (Str.lower s) = Str.lower (sub_whitespace b s).
Proof.
  unfold Str.lower. revert b. induction s as [|c s IH]; intros b; [done|].
  cbn [Str.map sub_whitespace]. rewrite is_space_lower.
  destruct (Chr.is_space c); [destruct b|]; cbn [Str.map]; by rewrite IH.
Qed.

Lemma lstrip_lower s :
  Str.lstrip Chr.is_space (Str.lower s) = Str.lower (Str.lstrip Chr.is_space s).
Proof.
  unfold Str.lower. induction s as [|c s IH]; [done|].
  cbn [Str.map Str.lstrip]. rewrite is_space_lower.
  by destruct (Chr.is_space c).
Qed.

Lemma rstrip_lower s :
  Str.rstrip Chr.is_space (Str.lower s) = Str.lower (Str.rstrip Chr.is_space s).
Proof.
  unfold Str.lower. induction s as [|c s IH]; [done|].
  cbn [Str.map Str.rstrip]. rewrite is_space_lower, IH.
  destruct (Str.rstrip Chr.is_space s); by destruct (Chr.is_space c).
Qed.

Lemma clean_text_lower s : clean_text (Str.lower s) = Str.lower (clean_text s).
Proof.
  unfold clean_text, Str.strip.
  by rewrite sub_whitespace_lower, lstrip_lower, rstrip_lower.
Qed.

Lemma clean_text_clean_text s : clean_text (clean_text s) = clean_text s.
Proof. apply normalized_clean_text, clean_text_normalized. Qed.

(** X9.  The job type and the review count read from a text do not depend
    on the case of its letters nor on how its whitespace is laid out: they
    are the same for the text, for the text in lower case and for the
    cleaned text. *)
Theorem normalizers_ignore_case_and_spacing (text : string) :
  parse_job_type (Str.lower text) = parse_job_type text
  ∧ parse_job_type (clean_text text) = parse_job_type text
  ∧ parse_client_reviews (Str.lower text) = parse_client_reviews text
  ∧ parse_client_reviews (clean_text text) = parse_client_reviews text.
Proof.
  unfold parse_job_type, parse_client_reviews.
  by rewrite clean_text_lower, lower_idempotent, clean_text_clean_text.
Qed.

(** ** The columns and cells of the tabular exports *)

Lemma elem_of_sorted (fields : gset string) f : f ∈ sorted fields ↔ f ∈ fields.
Proof. unfold sorted. by rewrite merge_sort_Permutation, elem_of_elements. Qed.

Lemma sorted_NoDup (fields : gset string) : NoDup (sorted fields).
Proof. unfold sorted. rewrite merge_sort_Permutation. apply NoDup_elements. Qed.

Lemma elem_of_collect_fieldnames data f :
  f ∈ _collect_fieldnames data ↔ f ∈ fields_of data.
Proof.
  rewrite collect_fieldnames_as_lists, elem_of_app, list_elem_of_filter,
    elem_of_sorted, elem_of_difference, elem_of_list_to_set.
  destruct (decide (f ∈ preferred_order)); tauto.
Qed.

Lemma collect_fieldnames_NoDup data : NoDup (_collect_fieldnames data).
Proof.
  rewrite collect_fieldnames_as_lists. apply NoDup_app. split; [|split].
  - apply NoDup_filter, preferred_order_NoDup.
  - intros f [_ Hpref]%list_elem_of_filter.
    rewrite elem_of_sorted, elem_of_difference, elem_of_list_to_set. tauto.
  - apply sorted_NoDup.
Qed.

(** X16.  The header of a CSV export holds every key of every record, each
    exactly once, and nothing else. *)
Theorem csv_header_complete (data : list dict) :
  NoDup (_collect_fieldnames data)
  ∧ ∀ f, f ∈ _collect_fieldnames data ↔ ∃ item, item ∈ data ∧ f ∈ keys item.
Proof.
  split; [apply collect_fieldnames_NoDup|].
  intros f. by rewrite elem_of_collect_fieldnames, elem_of_fields_of.
Qed.








(** ** Pauses *)

Section Pauses.

Variable date_parser_parse : string → py Datetime.datetime.
Variable now : Datetime.datetime.
Variable BeautifulSoup : string → Soup.
Variable search_url_template : string.
Variable max_items : Z.
Variable delay_seconds : float.
Variable http_get : string → option string.
Variable os_sleep : float → option string.

Lemma scrape_loop_events max_pages (n : nat) p jobs log jobs' log' :
  p + Z.of_nat n = max_pages + 1 →
  scrape_loop date_parser_parse now BeautifulSoup search_url_template
    max_items delay_seconds http_get os_sleep max_pages (seqZ p (Z.of_nat n)) jobs log
  = Ok (jobs', log') →
  ∃ events,
    log' = log ++ events
    ∧ pauses_ok events = true
    ∧ (n ≠ 0%nat → Z.of_nat (length jobs) < max_items →
       ∃ rest, events = Fetched p :: rest).
Proof.
  revert p jobs log. induction n as [|n IH]; intros p jobs log Hp.
  { cbn. intros [= <- <-]. exists []. by rewrite app_nil_r. }
  rewrite Nat2Z.inj_succ, seqZ_cons by lia.
  replace (Z.pred (Z.succ (Z.of_nat n))) with (Z.of_nat n) by lia.
  cbn [scrape_loop].
  destruct (Z.leb_spec max_items (Z.of_nat (length jobs))) as [Hcap|Hlt].
  { intros [= <- <-]. exists []. rewrite app_nil_r.
    split; [done|]. split; [done|]. lia. }
  destruct (fetch_search_page search_url_template http_get p) as [html|]; [|done].
  cbn [mbind py_bind bind].
  destruct (Str.is_empty html).
  { intros [= <- <-]. exists [Fetched p]. split; [done|]. split; [done|].
    by eexists. }
  destruct (snd (parse_jobs_from_html _ _ _ html)) as [page_jobs|]; [|done].
  cbn [mbind py_bind bind].
  set (jobs1 := append_jobs max_items jobs page_jobs).
  destruct ((p <? max_pages) && (Z.of_nat (length jobs1) <? max_items)) eqn:Hpause.
  - destruct (time_sleep os_sleep delay_seconds); [|done]. cbn [mbind py_bind bind].
    intros Hloop. apply IH in Hloop as (events & -> & Hok & Hnext); [|lia].
    apply andb_prop in Hpause as [Hlast%Z.ltb_lt Hroom%Z.ltb_lt].
    destruct Hnext as [rest ->]; [lia|done|].
    exists (Fetched p :: Slept :: Fetched (Z.succ p) :: rest).
    split; [by rewrite <- !app_assoc|]. split; [exact Hok|]. by eexists.
  - intros Hloop. apply IH in Hloop as (events & -> & Hok & _); [|lia].
    exists (Fetched p :: events).
    split; [by rewrite <- app_assoc|]. split; [exact Hok|]. by eexists.
Qed.

End Pauses.

(** X4.  A run that returns pauses only between two fetches: each pause
    in its log comes right after the fetch of a page and right before the
    fetch of the next one, so the run never ends on a pause. *)
Theorem scrape_pauses_between_fetches
    (date_parser_parse : string → py Datetime.datetime)
    (now : Datetime.datetime) (BeautifulSoup : string → Soup)
    (search_url_template : string) (max_items : Z) (delay_seconds : float)
    (http_get : string → option string) (os_sleep : float → option string)
    (max_pages : Z) jobs log :
  scrape_run date_parser_parse now BeautifulSoup search_url_template
    max_items delay_seconds http_get os_sleep max_pages = Ok (jobs, log) →
  pauses_ok log = true
  ∧ (log = [] ∨ ∃ rest, log = Fetched 1 :: rest).
Proof.
  unfold scrape_run. intros Hrun.
  destruct (Z.le_gt_cases max_items 0) as [Hcap|Hroom].
  { rewrite scrape_loop_cap_reached in Hrun by (cbn; lia).
    injection Hrun as <- <-. split; [done|by left]. }
  destruct (Z.le_gt_cases max_pages 0) as [Hnone|Hsome].
  { rewrite seqZ_nil in Hrun by lia. cbn in Hrun.
    injection Hrun as <- <-. split; [done|by left]. }
  replace max_pages with (Z.of_nat (Z.to_nat max_pages)) in Hrun at 2 by lia.
  apply scrape_loop_events in Hrun as (events & -> & Hok & Hnext); [|lia].
  cbn [app]. split; [done|]. right. apply Hnext; [lia|cbn; lia].
Qed.

Lemma scrape_pauses_between_fetches_witness :
  scrape_run no_dates sample_now ten_per_page sample_template 25
    default_delay always_html granted 5
  = Ok (fst (match scrape_run no_dates sample_now ten_per_page sample_template
                     25 default_delay always_html granted 5 with
             | Ok r => r
             | Raise _ => ([], [])
             end),
        [Fetched 1; Slept; Fetched 2; Slept; Fetched 3])
  ∧ pauses_ok [Fetched 1; Slept; Fetched 2; Slept; Fetched 3] = true.
Proof.
  assert (Hrun : scrape_run no_dates sample_now ten_per_page sample_template
                   25 default_delay always_html granted 5
                 = Ok (fst (match scrape_run no_dates sample_now ten_per_page
                                    sample_template 25 default_delay
                                    always_html granted 5 with
                            | Ok r => r
                            | Raise _ => ([], [])
                            end),
                       [Fetched 1; Slept; Fetched 2; Slept; Fetched 3]))
    by (vm_compute; reflexivity).
  split; [exact Hrun|].
  by destruct (scrape_pauses_between_fetches _ _ _ _ _ _ _ _ _ _ _ Hrun) as [Hok _].
Defined.

(** ** Posting times *)

Lemma parse_created_at_relative_witness :
  parse_created_at no_dates sample_now ("Posted " +:+ "3" +:+ " " +:+ "hours" +:+ " ago")
  = Ok "2026-11-03T09:00:00+00:00".
Proof.
  rewrite (parse_created_at_relative no_dates sample_now "3" "hours").
  - vm_compute. reflexivity.
  - reflexivity.
  - vm_compute. lia.
  - by apply (bool_decide_unpack _).
  - vm_compute. reflexivity.
  - vm_compute. discriminate.
Defined.

Lemma parse_created_at_blank_witness :
  parse_created_at no_dates sample_now (String "009" (String " " ""))
  = Ok "".
Proof. apply parse_created_at_blank. vm_compute. reflexivity. Defined.

Lemma parse_created_at_unrecognized_witness :
  parse_created_at no_dates sample_now "Posted   Recently"
  = Ok "Posted Recently".
Proof.
  apply (parse_created_at_unrecognized no_dates sample_now "Posted   Recently"
           (ValueError "Unknown string format")).
  - vm_compute. discriminate.
  - vm_compute. reflexivity.
  - vm_compute. discriminate.
  - reflexivity.
Defined.

Lemma parse_client_reviews_returns_witness :
  ∃ n, parse_client_reviews "Payment verified 48 reviews $15,000+ spent" = Ok n
       ∧ 0 ≤ n.
Proof. apply parse_client_reviews_returns. vm_compute. lia. Defined.

Lemma isoformat_not_empty dt : isoformat dt ≠ "".
Proof.
  unfold isoformat. destruct (civil _) as [[y m] d].
  destruct (pad 4 y); discriminate.
Qed.

(** X13.  [parse_created_at] returns the empty text only for a text that
    is empty once cleaned: a text with anything in it gives a timestamp or
    comes back cleaned. *)
Theorem parse_created_at_empty_only_for_blank
    (date_parser_parse : string → py datetime) (now : datetime) (text : string) :
  parse_created_at date_parser_parse now text = Ok ""
  ↔ clean_text text = "".
Proof.
  unfold parse_created_at. split.
  - destruct (clean_text text) as [|c t] eqn:Hclean; [done|].
    cbn [Str.lower Str.map Str.is_empty]. intros H. exfalso.
    unfold mbind, py_bind, bind, try_except in H.
    destruct (Re.match_ _ _).
    + py_inv H. injection H as H. by apply isoformat_not_empty in H.
    + destruct (String.eqb _ _).
      * py_inv H. injection H as H. by apply isoformat_not_empty in H.
      * destruct (date_parser_parse _); [|done].
        injection H as H. by apply isoformat_not_empty in H.
  - by intros ->.
Qed.

Lemma format_offset_utc : format_offset 0 = "+00:00".
Proof. reflexivity. Qed.

(** X12.  A date the date parser reads without a time zone is reported as
    UTC, and a date it reads with a time zone keeps it: the result is the
    ISO-8601 form of the date, with [+00:00] behind it when the date had no
    zone. *)
Theorem parse_created_at_parsed_date
    (date_parser_parse : string → py datetime) (now : datetime)
    (text : string) (dt : datetime) :
  clean_text text ≠ "" →
  Re.match_ relative_re (strip_posted (Str.lower (clean_text text))) = None →
  strip_posted (Str.lower (clean_text text)) ≠ "yesterday" →
  date_parser_parse (strip_posted (Str.lower (clean_text text))) = Ok dt →
  parse_created_at date_parser_parse now text
  = Ok (match utcoffset dt with
        | Some _ => isoformat dt
        | None => isoformat dt +:+ "+00:00"
        end).
Proof.
  intros Hne Hrel Hyes Hdate. unfold parse_created_at.
  destruct (clean_text text) as [|c t] eqn:E; [done|].
  cbn [Str.lower Str.map Str.is_empty]. cbn [Str.lower Str.map] in Hrel, Hyes, Hdate.
  rewrite Hrel. apply String.eqb_neq in Hyes. rewrite Hyes, Hdate.
  cbn [mbind py_bind bind try_except]. f_equal.
  destruct dt as [t0 [off|]]; [done|].
  unfold isoformat, replace_tzinfo_utc. cbn [ticks utcoffset].
  destruct (civil _) as [[y m] d]. rewrite format_offset_utc.
  rewrite app_empty_r. by rewrite !app_assoc_str.
Qed.

Lemma parse_created_at_parsed_date_witness :
  parse_created_at (λ _, Ok (mk_datetime (739660 * us_per_day) None))
    sample_now "Feb 14, 2026"
  = Ok "2026-02-14T00:00:00+00:00".
Proof.
  rewrite (parse_created_at_parsed_date _ sample_now "Feb 14, 2026"
             (mk_datetime (739660 * us_per_day) None)).
  - vm_compute. reflexivity.
  - vm_compute. discriminate.
  - vm_compute. reflexivity.
  - vm_compute. discriminate.
  - reflexivity.
Defined.
